(** * Metadata-Analyzer: the sanitizer, the GPS decoder and the report assembler

    A shallow embedding of [app.py].  Python values are an inductive type,
    exceptions are an explicit outcome ([res]), floats are IEEE 754 binary64
    numbers in the Standard Library's [spec_float] (precision 53, exponent
    bound 1024), and dictionaries are association lists in insertion order. *)

From Stdlib Require Import ZArith List String Ascii Bool Lia.
From Stdlib Require Import SpecFloat DecimalString.
From Stdlib.Strings Require Byte.
Import ListNotations.

Local Open Scope string_scope.
Local Open Scope Z_scope.

(** ** Outcomes of Python code: a value, or a raised exception

    Every handler of [app.py] is [except Exception], so one outcome [Exc]
    stands for all exceptions. *)

Inductive res (A : Type) : Type :=
| Ret (a : A)
| Exc.

Arguments Ret {A} a.
Arguments Exc {A}.

Definition bind {A B : Type} (c : res A) (k : A -> res B) : res B :=
  match c with
  | Ret a => k a
  | Exc => Exc
  end.

Notation "x <- c ;; k" := (bind c (fun x => k))
  (at level 61, c at next level, right associativity).

(** [try: body / except Exception: handler] *)
Definition try_except {A : Type} (body handler : res A) : res A :=
  match body with
  | Ret a => Ret a
  | Exc => handler
  end.

(** [try: body / except Exception: pass], followed by [rest]: the body either
    returns from the function ([Ret (Some a)]), falls off its end
    ([Ret None]) or raises; in the last two cases control reaches [rest]. *)
Definition try_pass {A : Type} (body : res (option A)) (rest : res A) : res A :=
  match body with
  | Ret (Some a) => Ret a
  | Ret None => rest
  | Exc => rest
  end.

(** ** Python floats *)

Module F64.

Definition prec : Z := 53.
Definition emax : Z := 1024.

Definition float : Type := spec_float.

Definition add : float -> float -> float := SFadd prec emax.
Definition div : float -> float -> float := SFdiv prec emax.
Definition opp : float -> float := SFopp.
Definition ltb : float -> float -> bool := SFltb.

(** The nearest float of an integer (ties to even); infinite when the
    integer is out of range. *)
Definition of_Z (n : Z) : float := binary_normalize prec emax n 0 false.

Definition zero : float := S754_zero false.
Definition one : float := Eval vm_compute in of_Z 1.
Definition f60 : float := Eval vm_compute in of_Z 60.
Definition f1024 : float := Eval vm_compute in of_Z 1024.
Definition f3600 : float := Eval vm_compute in of_Z 3600.

Definition is_zero (f : float) : bool :=
  match f with
  | S754_zero _ => true
  | _ => false
  end.

Definition is_finite (f : float) : bool :=
  match f with
  | S754_zero _ | S754_finite _ _ _ => true
  | _ => false
  end.

(** [float.is_integer] *)
Definition is_integer (f : float) : bool :=
  match f with
  | S754_zero _ => true
  | S754_finite _ m e =>
      if 0 <=? e then true else Zpos m mod 2 ^ (- e) =? 0
  | _ => false
  end.

(** [int(f)]: truncation towards zero; [ValueError] on nan,
    [OverflowError] on an infinity. *)
Definition to_int (f : float) : res Z :=
  match f with
  | S754_zero _ => Ret 0
  | S754_finite s m e =>
      let a := if 0 <=? e then Zpos m * 2 ^ e else Zpos m / 2 ^ (- e) in
      Ret (if s then - a else a)
  | _ => Exc
  end.

(** [a / b] on floats: [ZeroDivisionError] when [b] is a zero. *)
Definition py_div (a b : float) : res float :=
  if is_zero b then Exc else Ret (div a b).

(** [float(n)] for an [int]: [OverflowError] when out of range. *)
Definition of_int (n : Z) : res float :=
  let f := of_Z n in
  if is_finite f then Ret f else Exc.

(** *** Formatting with [:.2f]

    The exact value of the float times 100 is rounded to the nearest
    integer, ties to even, and printed with the point two digits from the
    right. *)

Definition round_half_even (num den : Z) : Z :=
  let q := num / den in
  let r := num mod den in
  match 2 * r ?= den with
  | Lt => q
  | Gt => q + 1
  | Eq => if Z.even q then q else q + 1
  end.

Definition str_of_nat_Z (n : Z) : string :=
  NilZero.string_of_uint (N.to_uint (Z.to_N n)).

Definition two_digits (n : Z) : string :=
  if n <? 10 then "0" ++ str_of_nat_Z n else str_of_nat_Z n.

Definition fixed2 (hundredths : Z) : string :=
  str_of_nat_Z (hundredths / 100) ++ "." ++ two_digits (hundredths mod 100).

Definition sign_str (s : bool) : string := if s then "-" else "".

Definition fmt2 (f : float) : string :=
  match f with
  | S754_nan => "nan"
  | S754_infinity s => sign_str s ++ "inf"
  | S754_zero s => sign_str s ++ "0.00"
  | S754_finite s m e =>
      let h := if 0 <=? e
               then Zpos m * 2 ^ e * 100
               else round_half_even (Zpos m * 100) (2 ^ (- e)) in
      sign_str s ++ fixed2 h
  end.

End F64.

(** [str(n)] for an [int] *)
Definition str_of_Z (n : Z) : string := NilZero.string_of_int (Z.to_int n).

(** ** Python strings

    A [str] is a sequence of characters, here the characters of [ascii]:
    the code points 0 to 255.  [s.upper()] is a builtin of the interpreter
    (below): it follows the Unicode tables, under which a capital can be
    several characters ("SS" for the sharp s, code 223). *)

(** The capital of a character of the ASCII range (codes 0 to 127) *)
Definition ascii_capital (c : ascii) : ascii :=
  let n := nat_of_ascii c in
  if ((97 <=? n) && (n <=? 122))%nat then ascii_of_nat (n - 32) else c.

(** [s.startswith(p)] *)
Definition startswith (s p : string) : bool := String.prefix p s.

(** [s[:n]] for a non-negative [n] *)
Definition str_prefix (n : nat) (s : string) : string := String.substring 0 n s.

(** [len(s)] *)
Definition len (s : string) : Z := Z.of_nat (String.length s).

(** ** Python values

    The values an EXIF mapping can hold: the simple types, [bytes] (and
    [bytearray], treated alike), dictionaries, lists, tuples, and objects of
    any other class.  An object of another class is described by what the
    code can observe of it: the outcome of [float(o)], of [bool(o)] and of
    [str(o)], and its four attributes [numerator], [num], [denominator] and
    [den], each missing, raising on access, or holding a value. *)

Inductive key : Type :=
| KInt (n : Z)
| KStr (s : string).

Inductive attr (A : Type) : Type :=
| AttrMissing
| AttrRaises
| AttrValue (a : A).

Arguments AttrMissing {A}.
Arguments AttrRaises {A}.
Arguments AttrValue {A} a.

Local Unset Elimination Schemes.

Inductive value : Type :=
| VNone
| VBool (b : bool)
| VInt (n : Z)
| VFloat (f : F64.float)
| VStr (s : string)
| VBytes (bs : list Byte.byte)
| VDict (items : list (key * value))
| VList (xs : list value)
| VTuple (xs : list value)
| VObj (o_float : res F64.float) (o_bool : res bool) (o_str : res string)
       (numerator num denominator den : attr value).

Local Set Elimination Schemes.

Definition dict : Type := list (key * value).

Definition key_eqb (a b : key) : bool :=
  match a, b with
  | KInt m, KInt n => m =? n
  | KStr s, KStr t => String.eqb s t
  | _, _ => false
  end.

(** [str(k)] for a dictionary key *)
Definition str_of_key (k : key) : string :=
  match k with
  | KInt n => str_of_Z n
  | KStr s => s
  end.

(** *** Dictionaries: association lists in insertion order *)

Section Assoc.

Context {K V : Type} (eqb : K -> K -> bool).

(** [d.get(k)] *)
Fixpoint assoc_get (d : list (K * V)) (k : K) : option V :=
  match d with
  | [] => None
  | (k', v) :: rest => if eqb k' k then Some v else assoc_get rest k
  end.

(** [d[k] = v]: an existing key keeps its place, a new one goes last. *)
Fixpoint assoc_set (d : list (K * V)) (k : K) (v : V) : list (K * V) :=
  match d with
  | [] => [(k, v)]
  | (k', v') :: rest =>
      if eqb k' k then (k', v) :: rest else (k', v') :: assoc_set rest k v
  end.

End Assoc.

Definition dict_get : dict -> key -> option value := assoc_get key_eqb.
Definition dict_set : dict -> key -> value -> dict := assoc_set key_eqb.

(** *** Builtins of the interpreter

    The codecs, parsers and printers of Python that [app.py] calls and whose
    text is not part of the repository. *)

Record builtins : Type := {
  (** [b.decode(errors="ignore")] *)
  bytes_decode : list Byte.byte -> res string;
  (** [str(b)] for [bytes] *)
  str_of_bytes : list Byte.byte -> string;
  (** [float(s)] for a [str] *)
  float_of_str : string -> res F64.float;
  (** [float(b)] for [bytes] *)
  float_of_bytes : list Byte.byte -> res F64.float;
  (** [str(f)] for a [float] *)
  str_of_float : F64.float -> string;
  (** [str(c)] for a dictionary, a list or a tuple *)
  str_of_container : value -> res string;
  (** [s.upper()] *)
  str_upper : string -> string;
  (** [PIL.ExifTags.TAGS] and [PIL.ExifTags.GPSTAGS] *)
  TAGS : Z -> option string;
  GPSTAGS : Z -> option string
}.

(** ** The builtin conversions on values *)

Inductive attr_name : Type := a_numerator | a_num | a_denominator | a_den.

Definition is_none (v : value) : bool :=
  match v with
  | VNone => true
  | _ => false
  end.

Definition outcome_of_attr (a : attr value) : res value :=
  match a with
  | AttrMissing => Ret VNone
  | AttrRaises => Exc
  | AttrValue v => Ret v
  end.

(** [getattr(v, name, None)]: an [int] (and a [bool]) has [numerator] and
    [denominator]; the other builtin types have none of the four. *)
Definition py_getattr (v : value) (name : attr_name) : res value :=
  match v with
  | VObj _ _ _ numerator num denominator den =>
      outcome_of_attr
        match name with
        | a_numerator => numerator
        | a_num => num
        | a_denominator => denominator
        | a_den => den
        end
  | VInt n =>
      match name with
      | a_numerator => Ret (VInt n)
      | a_denominator => Ret (VInt 1)
      | _ => Ret VNone
      end
  | VBool b =>
      match name with
      | a_numerator => Ret (VInt (if b then 1 else 0))
      | a_denominator => Ret (VInt 1)
      | _ => Ret VNone
      end
  | _ => Ret VNone
  end.

(** [bool(v)], the truth value used by [if], [not], [and] and [or] *)
Definition py_truthy (v : value) : res bool :=
  match v with
  | VNone => Ret false
  | VBool b => Ret b
  | VInt n => Ret (negb (n =? 0))
  | VFloat f => Ret (negb (F64.is_zero f))
  | VStr s => Ret (negb (String.eqb s ""))
  | VBytes bs => Ret (negb (Nat.eqb (List.length bs) 0))
  | VDict items => Ret (negb (Nat.eqb (List.length items) 0))
  | VList xs | VTuple xs => Ret (negb (Nat.eqb (List.length xs) 0))
  | VObj _ o_bool _ _ _ _ _ => o_bool
  end.

(** [a or b]: [a] when it is true, else [b] (evaluated only then) *)
Definition py_or (a b : res value) : res value :=
  x <- a ;;
  t <- py_truthy x ;;
  if t then Ret x else b.

(** *** Comprehensions *)

Section Comprehensions.

Variable fk : key -> key.
Variable fv : value -> res value.

(** [[fv(x) for x in xs]] *)
Fixpoint each (xs : list value) : res (list value) :=
  match xs with
  | [] => Ret []
  | x :: rest =>
      y <- fv x ;;
      ys <- each rest ;;
      Ret (y :: ys)
  end.

(** [{fk(k): fv(v) for k, v in kvs}], the items going into [acc] one by
    one *)
Fixpoint comprehension (kvs : dict) (acc : dict) : res dict :=
  match kvs with
  | [] => Ret acc
  | (k, v) :: rest =>
      v' <- fv v ;;
      comprehension rest (dict_set acc (fk k) v')
  end.

End Comprehensions.

Section Builtins.

Variable B : builtins.

(** [float(v)] *)
Definition py_float (v : value) : res F64.float :=
  match v with
  | VBool b => Ret (if b then F64.one else F64.zero)
  | VInt n => F64.of_int n
  | VFloat f => Ret f
  | VStr s => float_of_str B s
  | VBytes bs => float_of_bytes B bs
  | VObj o_float _ _ _ _ _ _ => o_float
  | VNone | VDict _ | VList _ | VTuple _ => Exc
  end.

(** [str(v)] *)
Definition py_str (v : value) : res string :=
  match v with
  | VNone => Ret "None"
  | VBool b => Ret (if b then "True" else "False")
  | VInt n => Ret (str_of_Z n)
  | VFloat f => Ret (str_of_float B f)
  | VStr s => Ret s
  | VBytes bs => Ret (str_of_bytes B bs)
  | VDict _ | VList _ | VTuple _ => str_of_container B v
  | VObj _ _ o_str _ _ _ _ => o_str
  end.

(** A float kept as an [int] when it has no fractional part:
    [if f.is_integer(): return int(f)] / [return f] *)
Definition collapse (f : F64.float) : res value :=
  if F64.is_integer f
  then n <- F64.to_int f ;; Ret (VInt n)
  else Ret (VFloat f).

(** [try: return b.decode(errors="ignore")] /
    [except Exception: return str(b)] *)
Definition decode_bytes (bs : list Byte.byte) : string :=
  match bytes_decode B bs with
  | Ret s => s
  | Exc => str_of_bytes B bs
  end.

(** *** [sanitize_for_json]: the steps for an object of another class *)

(** [try: f = float(obj) ...] *)
Definition sanitize_float (obj : value) : res (option value) :=
  f <- py_float obj ;;
  v <- collapse f ;;
  Ret (Some v).

(** [try: num = getattr(...) or getattr(...) ...], with its inner
    [try: val = float(num) / float(den) ...] *)
Definition sanitize_ratio (obj : value) : res (option value) :=
  num <- py_or (py_getattr obj a_numerator) (py_getattr obj a_num) ;;
  den <- py_or (py_getattr obj a_denominator) (py_getattr obj a_den) ;;
  if negb (is_none num) && negb (is_none den)
  then
    try_except
      (n <- py_float num ;;
       d <- py_float den ;;
       val <- F64.py_div n d ;;
       v <- collapse val ;;
       Ret (Some v))
      (Ret None)
  else Ret None.

(** [try: return str(obj) / except Exception: return None] *)
Definition sanitize_fallback (obj : value) : res value :=
  try_except (s <- py_str obj ;; Ret (VStr s)) (Ret VNone).

Definition sanitize_other (obj : value) : res value :=
  try_pass (sanitize_float obj)
    (try_pass (sanitize_ratio obj)
       (sanitize_fallback obj)).

Fixpoint sanitize_for_json (obj : value) : res value :=
  match obj with
  | VNone => Ret VNone
  | VBool _ | VInt _ | VFloat _ | VStr _ => Ret obj
  | VBytes bs => Ret (VStr (decode_bytes bs))
  | VDict items =>
      d <- comprehension (fun k => KStr (str_of_key k)) sanitize_for_json
             items [] ;;
      Ret (VDict d)
  | VList xs | VTuple xs =>
      ys <- each sanitize_for_json xs ;;
      Ret (VList ys)
  | VObj _ _ _ _ _ _ _ => sanitize_other obj
  end.

(** *** The GPS helpers *)

(** The items of a list or a tuple *)
Definition seq_items (v : value) : option (list value) :=
  match v with
  | VList xs | VTuple xs => Some xs
  | _ => None
  end.

(** [float(num) / float(den)] *)
Definition ratio (num den : value) : res F64.float :=
  n <- py_float num ;;
  d <- py_float den ;;
  F64.py_div n d.

Definition _to_float_rational (r : value) : res F64.float :=
  try_except (py_float r)
    match seq_items r with
    | Some [num; den] => ratio num den
    | _ =>
        num <- py_or (py_getattr r a_numerator) (py_getattr r a_num) ;;
        den <- py_or (py_getattr r a_denominator) (py_getattr r a_den) ;;
        if negb (is_none num) && negb (is_none den)
        then ratio num den
        else Exc
    end.

(** [d + (m / 60.0) + (s / 3600.0)] *)
Definition dms (d m s : F64.float) : F64.float :=
  F64.add (F64.add d (F64.div m F64.f60)) (F64.div s F64.f3600).

(** The result is [None] (of Python) or a float. *)
Definition _convert_to_degrees (v : value) : res (option F64.float) :=
  try_except
    match seq_items v with
    | Some [a; b; c] =>
        d <- _to_float_rational a ;;
        m <- _to_float_rational b ;;
        s <- _to_float_rational c ;;
        Ret (Some (dms d m s))
    | _ =>
        f <- _to_float_rational v ;;
        Ret (Some f)
    end
    (Ret None).

(** [GPSTAGS.get(key, key)] *)
Definition gps_sub_tag (k : key) : key :=
  match k with
  | KInt n =>
      match GPSTAGS B n with
      | Some name => KStr name
      | None => k
      end
  | KStr _ => k
  end.

(** [TAGS.get(tag_id, str(tag_id))] *)
Definition exif_tag_name (tag_id : Z) : string :=
  match TAGS B tag_id with
  | Some name => name
  | None => str_of_Z tag_id
  end.

(** [d.get(k)], with [None] of Python for a missing key *)
Definition dict_get_or_none (d : dict) (k : key) : value :=
  match dict_get d k with
  | Some v => v
  | None => VNone
  end.

(** [if isinstance(v, (bytes, bytearray)): v = v.decode(errors="ignore")],
    with [str(v)] when decoding raises *)
Definition decode_if_bytes (v : value) : value :=
  match v with
  | VBytes bs => VStr (decode_bytes bs)
  | _ => v
  end.

(** [ref and str(ref).upper().startswith(letter)] as a truth value *)
Definition ref_is (letter : string) (ref : value) : res bool :=
  t <- py_truthy ref ;;
  if t
  then s <- py_str ref ;; Ret (startswith (str_upper B s) letter)
  else Ret false.

(** [x = _convert_to_degrees(raw)] /
    [if x is not None and ref and ...startswith(letter): x = -x] *)
Definition coordinate (letter : string) (raw ref : value)
  : res (option F64.float) :=
  x <- _convert_to_degrees raw ;;
  match x with
  | None => Ret None
  | Some f =>
      neg <- ref_is letter ref ;;
      Ret (Some (if neg then F64.opp f else f))
  end.

(** [{k: sanitize_for_json(v) for k, v in d.items()}] *)
Definition sanitize_values (d : dict) : res dict :=
  comprehension (fun k => k) sanitize_for_json d [].

Record gps_report : Type := {
  gps_raw : dict;
  latitude : option F64.float;
  longitude : option F64.float
}.

(** The dictionary [exif_data] has the tag names as keys. *)
Definition exif_dict : Type := list (string * value).

(** [for key, val in gps_info.items(): gps_data_raw[GPSTAGS.get(key, key)] = val] *)
Definition gps_data_raw_of (gps_info : dict) : dict :=
  fold_left (fun acc kv => dict_set acc (gps_sub_tag (fst kv)) (snd kv))
    gps_info [].

Definition get_gps_info (exif_data : exif_dict) : res (option gps_report) :=
  let gps_info :=
    match assoc_get String.eqb exif_data "GPSInfo" with
    | Some v => v
    | None => VNone
    end in
  t <- py_truthy gps_info ;;
  if negb t then Ret None
  else
    match gps_info with
    | VDict items =>
        let gps_data_raw := gps_data_raw_of items in
        let lat_ref :=
          decode_if_bytes (dict_get_or_none gps_data_raw (KStr "GPSLatitudeRef")) in
        let lon_ref :=
          decode_if_bytes (dict_get_or_none gps_data_raw (KStr "GPSLongitudeRef")) in
        lat <- match dict_get gps_data_raw (KStr "GPSLatitude") with
               | Some raw => coordinate "S" raw lat_ref
               | None => Ret None
               end ;;
        lon <- match dict_get gps_data_raw (KStr "GPSLongitude") with
               | Some raw => coordinate "W" raw lon_ref
               | None => Ret None
               end ;;
        gps_data_sanitized <- sanitize_values gps_data_raw ;;
        Ret (Some {| gps_raw := gps_data_sanitized;
                     latitude := lat;
                     longitude := lon |})
    | _ => Exc
    end.

(** *** [format_size] *)

Definition units : list string := ["B"; "KB"; "MB"; "GB"; "TB"].

(** [for unit in units: if size < 1024.0: return ... / size /= 1024.0],
    then [return f"{size:.2f} PB"] *)
Fixpoint format_size_loop (us : list string) (size : F64.float) : string :=
  match us with
  | [] => F64.fmt2 size ++ " PB"
  | unit :: rest =>
      if F64.ltb size F64.f1024
      then F64.fmt2 size ++ " " ++ unit
      else format_size_loop rest (F64.div size F64.f1024)
  end.

Definition format_size (bytes_size : Z) : res string :=
  size <- F64.of_int bytes_size ;;
  Ret (format_size_loop units size).

(** *** The image, as the decoding library hands it over

    [img_size] is [os.path.getsize] of the saved file; [img_getexif] is the
    outcome of [img._getexif()]: an exception, [None], or a dictionary from
    numeric tag IDs to raw values. *)

Record image : Type := {
  img_file_name : string;
  img_format : option string;
  img_mode : string;
  img_width : Z;
  img_height : Z;
  img_size : Z;
  img_getexif : res (option (list (Z * value)))
}.

Record basic_info : Type := {
  file_name : string;
  format : option string;
  mode : string;
  resolution : string;
  width : Z;
  height : Z;
  file_size : string
}.

Definition get_basic_info (img : image) : res basic_info :=
  size <- format_size (img_size img) ;;
  Ret {| file_name := img_file_name img;
         format := img_format img;
         mode := img_mode img;
         resolution :=
           str_of_Z (img_width img) ++ " x " ++ str_of_Z (img_height img) ++ " px";
         width := img_width img;
         height := img_height img;
         file_size := size |}.

Definition get_exif_data (img : image) : exif_dict :=
  let exif_raw :=
    match img_getexif img with
    | Ret r => r
    | Exc => None
    end in
  match exif_raw with
  | None | Some [] => []
  | Some items =>
      fold_left
        (fun exif_data kv =>
           assoc_set String.eqb exif_data (exif_tag_name (fst kv)) (snd kv))
        items []
  end.

(** *** The report *)

Definition SENSITIVE_TAGS : list string :=
  ["GPSInfo"; "GPSLatitude"; "GPSLongitude"; "GPSLatitudeRef";
   "GPSLongitudeRef"; "DateTime"; "DateTimeOriginal"; "DateTimeDigitized";
   "Model"; "Make"; "OwnerName"; "Software"].

(** [tag in tags] *)
Definition tag_in (tag : string) (tags : list string) : bool :=
  existsb (String.eqb tag) tags.

Record exif_entry : Type := {
  entry_tag : string;
  entry_value : string;
  is_sensitive : bool
}.

Record privacy_flags : Type := {
  has_gps : bool;
  has_datetime : bool;
  has_camera_model : bool
}.

Record report : Type := {
  success : bool;
  rep_basic_info : basic_info;
  exif : list exif_entry;
  gps : option gps_report;
  flags : privacy_flags;
  message : string
}.

(** What the endpoint answers once the upload is saved: the report, or the
    error of status 500. *)
Inductive response : Type :=
| Answer (r : report)
| Failure500.

Definition is_simple (v : value) : bool :=
  match v with
  | VStr _ | VInt _ | VFloat _ | VBool _ | VNone => true
  | _ => false
  end.

(** [if len(value_str) > 200: value_str = value_str[:200] + "... (truncated)"] *)
Definition truncate (value_str : string) : string :=
  if 200 <? len value_str
  then str_prefix 200 value_str ++ "... (truncated)"
  else value_str.

(** The display string of a tag value, before truncation *)
Definition display_str (v : value) : res string :=
  let dv1 := decode_if_bytes v in
  dv2 <- match dv1 with
         | VList _ | VTuple _ =>
             try_except (sanitize_for_json dv1)
               (s <- py_str dv1 ;; Ret (VStr s))
         | _ => Ret dv1
         end ;;
  dv3 <- (if is_simple dv2 then Ret dv2
          else try_except (s <- py_str dv2 ;; Ret (VStr s))
                 (Ret (VStr "<unserializable>"))) ;;
  py_str dv3.

Record loop_state : Type := {
  exif_list : list exif_entry;
  seen_datetime : bool;
  seen_camera_model : bool
}.

(** One turn of [for tag, value in exif_data.items()] *)
Definition loop_body (st : loop_state) (tag : string) (v : value)
  : res loop_state :=
  value_str <- display_str v ;;
  let value_str := truncate value_str in
  Ret {| exif_list :=
           exif_list st ++
             [{| entry_tag := tag;
                 entry_value := value_str;
                 is_sensitive := tag_in tag SENSITIVE_TAGS |}];
         seen_datetime :=
           if tag_in tag ["DateTime"; "DateTimeOriginal"; "DateTimeDigitized"]
           then true else seen_datetime st;
         seen_camera_model :=
           if tag_in tag ["Model"; "Make"] then true
           else seen_camera_model st |}.

Fixpoint loop (items : exif_dict) (st : loop_state) : res loop_state :=
  match items with
  | [] => Ret st
  | (tag, v) :: rest => st' <- loop_body st tag v ;; loop rest st'
  end.

(** [gps is not None and gps.get("latitude") is not None
     and gps.get("longitude") is not None] *)
Definition has_gps_flag (gps : option gps_report) : bool :=
  match gps with
  | None => false
  | Some g =>
      match latitude g, longitude g with
      | Some _, Some _ => true
      | _, _ => false
      end
  end.

(** [jsonify(...)]: the serialiser sorts the keys of every dictionary, and
    sorting raises [TypeError] when a dictionary holds [int] and [str] keys
    together.  In a report only [gps["raw"]] can: the other dictionaries
    have [str] keys, and every value is one the serialiser writes. *)
Definition is_int_key (k : key) : bool :=
  match k with
  | KInt _ => true
  | KStr _ => false
  end.

Definition mixed_keys (d : dict) : bool :=
  existsb is_int_key (map fst d) &&
  existsb (fun k => negb (is_int_key k)) (map fst d).

Definition jsonify (r : report) : res report :=
  match gps r with
  | Some g => if mixed_keys (gps_raw g) then Exc else Ret r
  | None => Ret r
  end.

(** The body of [with Image.open(save_path) as img:] *)
Definition analyze_image (img : image) : res report :=
  basic <- get_basic_info img ;;
  let exif_data := get_exif_data img in
  match exif_data with
  | [] =>
      jsonify {| success := true;
                 rep_basic_info := basic;
                 exif := [];
                 gps := None;
                 flags := {| has_gps := false;
                             has_datetime := false;
                             has_camera_model := false |};
                 message := "No EXIF metadata found in this image." |}
  | _ =>
      gps <- get_gps_info exif_data ;;
      st <- loop exif_data {| exif_list := [];
                              seen_datetime := false;
                              seen_camera_model := false |} ;;
      jsonify {| success := true;
                 rep_basic_info := basic;
                 exif := exif_list st;
                 gps := gps;
                 flags := {| has_gps := has_gps_flag gps;
                             has_datetime := seen_datetime st;
                             has_camera_model := seen_camera_model st |};
                 message := "Metadata analyzed successfully." |}
  end.

(** [analyze], from the opened image on: any exception becomes the answer
    of status 500. *)
Definition analyze (img : image) : response :=
  match analyze_image img with
  | Ret r => Answer r
  | Exc => Failure500
  end.

End Builtins.

(** ** [allowed_file] *)

Definition lower_char (c : ascii) : ascii :=
  let n := nat_of_ascii c in
  if ((65 <=? n) && (n <=? 90))%nat then ascii_of_nat (n + 32) else c.

(** [s.lower()] *)
Fixpoint lower (s : string) : string :=
  match s with
  | EmptyString => EmptyString
  | String c rest => String (lower_char c) (lower rest)
  end.

(** ["." in s] *)
Fixpoint has_dot (s : string) : bool :=
  match s with
  | EmptyString => false
  | String c rest => Ascii.eqb c "." || has_dot rest
  end.

(** [s.rsplit(".", 1)]: the text before and after the last dot, or [None]
    when there is no dot (the list has then one element and no index 1). *)
Fixpoint rsplit_dot (s : string) : option (string * string) :=
  match s with
  | EmptyString => None
  | String c rest =>
      match rsplit_dot rest with
      | Some (before, after) => Some (String c before, after)
      | None => if Ascii.eqb c "." then Some (EmptyString, rest) else None
      end
  end.

Definition ALLOWED_EXTENSIONS : list string :=
  ["jpg"; "jpeg"; "png"; "tiff"; "webp"].

(** ["." in filename and filename.rsplit(".", 1)[1].lower() in ALLOWED_EXTENSIONS] *)
Definition allowed_file (filename : string) : bool :=
  has_dot filename &&
  match rsplit_dot filename with
  | Some (_, ext) => existsb (String.eqb (lower ext)) ALLOWED_EXTENSIONS
  | None => false
  end.

(** ** Sanitized values

    The JSON-safe values: [None], [bool], [int], [float], [str], lists of
    JSON-safe values, and dictionaries with distinct [str] keys and JSON-safe
    values. *)

Definition is_str_key (k : key) : bool :=
  match k with
  | KStr _ => true
  | KInt _ => false
  end.

Fixpoint distinct_keys (ks : list key) : bool :=
  match ks with
  | [] => true
  | k :: rest => negb (existsb (key_eqb k) rest) && distinct_keys rest
  end.

Fixpoint json_safe (v : value) : bool :=
  match v with
  | VNone | VBool _ | VInt _ | VFloat _ | VStr _ => true
  | VList xs => forallb json_safe xs
  | VDict items =>
      forallb (fun kv => is_str_key (fst kv) && json_safe (snd kv)) items
      && distinct_keys (map fst items)
  | VBytes _ | VTuple _ | VObj _ _ _ _ _ _ _ => false
  end.

(** ** Induction on values, through the lists and dictionaries they hold *)

Section ValueInduction.

Variable P : value -> Prop.

Hypothesis HNone : P VNone.
Hypothesis HBool : forall b, P (VBool b).
Hypothesis HInt : forall n, P (VInt n).
Hypothesis HFloat : forall f, P (VFloat f).
Hypothesis HStr : forall s, P (VStr s).
Hypothesis HBytes : forall bs, P (VBytes bs).
Hypothesis HDict :
  forall items, Forall (fun kv => P (snd kv)) items -> P (VDict items).
Hypothesis HList : forall xs, Forall P xs -> P (VList xs).
Hypothesis HTuple : forall xs, Forall P xs -> P (VTuple xs).
Hypothesis HObj :
  forall fl tr st a1 a2 a3 a4, P (VObj fl tr st a1 a2 a3 a4).

Fixpoint value_nested_ind (v : value) : P v :=
  match v with
  | VNone => HNone
  | VBool b => HBool b
  | VInt n => HInt n
  | VFloat f => HFloat f
  | VStr s => HStr s
  | VBytes bs => HBytes bs
  | VDict items =>
      HDict items
        ((fix go (l : list (key * value)) : Forall (fun kv => P (snd kv)) l :=
            match l with
            | [] => Forall_nil _
            | kv :: rest =>
                Forall_cons kv (value_nested_ind (snd kv)) (go rest)
            end) items)
  | VList xs =>
      HList xs
        ((fix go (l : list value) : Forall P l :=
            match l with
            | [] => Forall_nil _
            | x :: rest => Forall_cons x (value_nested_ind x) (go rest)
            end) xs)
  | VTuple xs =>
      HTuple xs
        ((fix go (l : list value) : Forall P l :=
            match l with
            | [] => Forall_nil _
            | x :: rest => Forall_cons x (value_nested_ind x) (go rest)
            end) xs)
  | VObj fl tr st a1 a2 a3 a4 => HObj fl tr st a1 a2 a3 a4
  end.

End ValueInduction.

(** ** Hemisphere references, as the statements name them *)

(** A reference that is text ([str], or [bytes] to decode), or missing *)
Definition is_text_or_none (ref : value) : bool :=
  match ref with
  | VStr _ | VBytes _ | VNone => true
  | _ => false
  end.

(** The text of a reference that is a [str], or [bytes] to decode *)
Definition ref_text (B : builtins) (ref : value) : option string :=
  match ref with
  | VStr r => Some r
  | VBytes bs => Some (decode_bytes B bs)
  | _ => None
  end.

(** The reference is text that is not empty and that, uppercased, begins
    with [c]. *)
Definition ref_begins (B : builtins) (c : ascii) (ref : value) : bool :=
  match ref_text B ref with
  | Some r => negb (String.eqb r "") && startswith (str_upper B r) (String c "")
  | None => false
  end.

(** What [upper] does on the ASCII range: a character of the range is
    replaced by its capital, whatever follows it. *)
Definition upper_on_ascii (B : builtins) : Prop :=
  forall c rest,
    (nat_of_ascii c < 128)%nat ->
    str_upper B (String c rest) = String (ascii_capital c) (str_upper B rest).

(** ** The rational reading of an element, as the statements name it

    The element [v] reads as the float [f]: [float(v)] returns [f]; or [v]
    is a pair; or [v] is an object for which [float] raises and which
    exposes a [numerator] and a [denominator] that are true values, or, with
    neither, a [num] and a [den] that are not [None]; in these cases the
    floats [n] and [d] of the two parts, [d] not a zero, have the quotient
    [f]. *)
Inductive rational_value (B : builtins) : value -> F64.float -> Prop :=
| RV_float (v : value) (f : F64.float) :
    py_float B v = Ret f -> rational_value B v f
| RV_pair (v num den : value) (n d : F64.float) :
    seq_items v = Some [num; den] ->
    py_float B num = Ret n -> py_float B den = Ret d ->
    F64.is_zero d = false ->
    rational_value B v (F64.div n d)
| RV_attrs (tr : res bool) (st : res string) (a2 a4 : attr value)
    (num den : value) (n d : F64.float) :
    py_truthy num = Ret true -> py_truthy den = Ret true ->
    py_float B num = Ret n -> py_float B den = Ret d ->
    F64.is_zero d = false ->
    rational_value B
      (VObj Exc tr st (AttrValue num) a2 (AttrValue den) a4) (F64.div n d)
| RV_short_attrs (tr : res bool) (st : res string)
    (num den : value) (n d : F64.float) :
    is_none num = false -> is_none den = false ->
    py_float B num = Ret n -> py_float B den = Ret d ->
    F64.is_zero d = false ->
    rational_value B
      (VObj Exc tr st AttrMissing (AttrValue num) AttrMissing (AttrValue den))
      (F64.div n d).


(** The sharp s, one character of code 223 *)
Definition sharp_s : string := String (ascii_of_nat 223) "".

(** 10.5 and -10.5 are 5910974510923776 / 2^49 and its opposite; 10.51 is
    5916604010457989 / 2^49. *)
Definition f10_5 : F64.float := S754_finite false 5910974510923776 (-49).
Definition fm10_5 : F64.float := S754_finite true 5910974510923776 (-49).
Definition f10_51 : F64.float := S754_finite false 5916604010457989 (-49).
Definition fm10_51 : F64.float := S754_finite true 5916604010457989 (-49).

(** A dictionary with distinct [str] keys and JSON-safe values *)
Definition safe_items (d : dict) : Prop :=
  Forall (fun k => is_str_key k = true) (map fst d) /\
  Forall (fun kv => json_safe (snd kv) = true) d /\
  NoDup (map fst d).

(** ** The unit ladder, as the statements name it *)



(** [n] copies of the character [c] *)
Fixpoint replicate (n : nat) (c : ascii) : string :=
  match n with
  | O => EmptyString
  | S n' => String c (replicate n' c)
  end.

(** ** The EXIF mapping, as the statements name it *)

(** The items of the mapping that [img._getexif()] yields, in its order:
    none when reading raises or yields [None]. *)
Definition exif_items (img : image) : list (Z * value) :=
  match img_getexif img with
  | Ret (Some items) => items
  | _ => []
  end.

(** An item of the EXIF mapping under its resolved tag name *)
Definition named_item (B : builtins) (kv : Z * value) : string * value :=
  (exif_tag_name B (fst kv), snd kv).

(** An item of the GPS mapping under its resolved sub-tag *)
Definition gps_item (B : builtins) (kv : key * value) : key * value :=
  (gps_sub_tag B (fst kv), snd kv).

(** ** Dictionaries filled in a loop *)

Section Fill.

Context {K V X : Type} (eqb : K -> K -> bool) (kf : X -> K) (vf : X -> V).

(** [for x in xs: d[kf(x)] = vf(x)] *)
Definition fill (xs : list X) (d : list (K * V)) : list (K * V) :=
  fold_left (fun acc x => assoc_set eqb acc (kf x) (vf x)) xs d.

(** The item written for [x] *)
Definition item (x : X) : K * V := (kf x, vf x).

End Fill.

(** ** The tag list and the GPS tag, as the statements name them *)

(** The entry [e] of the tag list is the one of the tag [kv]: its name, its
    sensitivity, and its display string, truncated. *)
Definition entry_of (B : builtins) (kv : string * value) (e : exif_entry)
  : Prop :=
  entry_tag e = fst kv /\
  is_sensitive e = tag_in (fst kv) SENSITIVE_TAGS /\
  exists s, display_str B (snd kv) = Ret s /\ entry_value e = truncate s.

(** The GPSInfo tag is missing, [None], or a dictionary whose two
    hemisphere references are text or missing and whose sub-tags, once
    resolved, are all names or all numbers. *)
Definition gps_tag_ok (B : builtins) (exif_data : exif_dict) : bool :=
  match assoc_get String.eqb exif_data "GPSInfo" with
  | None | Some VNone => true
  | Some (VDict items) =>
      let raw := gps_data_raw_of B items in
      is_text_or_none (dict_get_or_none raw (KStr "GPSLatitudeRef")) &&
      is_text_or_none (dict_get_or_none raw (KStr "GPSLongitudeRef")) &&
      negb (mixed_keys raw)
  | Some _ => false
  end.

(** A true value of a builtin type other than a dictionary: a number that
    is not zero, [True], or text, bytes, a list or a tuple that is not
    empty. *)
Definition true_and_not_a_dict (v : value) : bool :=
  match v with
  | VBool b => b
  | VInt n => negb (n =? 0)
  | VFloat f => negb (F64.is_zero f)
  | VStr s => negb (String.eqb s "")
  | VBytes bs => negb (Nat.eqb (List.length bs) 0)
  | VList xs | VTuple xs => negb (Nat.eqb (List.length xs) 0)
  | VNone | VDict _ | VObj _ _ _ _ _ _ _ => false
  end.

(** ** Whole floats, as the statements name them *)

(** The float [f] has exactly the value of the integer [n]. *)
Definition is_exactly (f : F64.float) (n : Z) : Prop :=
  match f with
  | S754_zero _ => n = 0
  | S754_finite s m e =>
      let a := if s then - Zpos m else Zpos m in
      if 0 <=? e then n = a * 2 ^ e else n * 2 ^ (- e) = a
  | _ => False
  end.

(** ** An interpreter for worked examples

    The statements below hold for every [builtins].  Worked examples need one
    to run on: this one decodes ASCII bytes exactly (and drops the others, as
    [errors="ignore"] drops invalid bytes), parses no string as a float,
    prints floats, bytes and containers as placeholders, uppercases the
    characters whose capitals have codes up to 255, and holds an excerpt of
    the tag tables of the EXIF standard. *)

Definition ascii_decode (bs : list Byte.byte) : string :=
  string_of_list_ascii
    (map ascii_of_byte (filter (fun b => (Byte.to_N b <? 128)%N) bs)).

Definition sample_TAGS (tag_id : Z) : option string :=
  if tag_id =? 271 then Some "Make"
  else if tag_id =? 272 then Some "Model"
  else if tag_id =? 305 then Some "Software"
  else if tag_id =? 306 then Some "DateTime"
  else if tag_id =? 34853 then Some "GPSInfo"
  else if tag_id =? 36867 then Some "DateTimeOriginal"
  else if tag_id =? 36868 then Some "DateTimeDigitized"
  else None.

Definition sample_GPSTAGS (tag_id : Z) : option string :=
  if tag_id =? 1 then Some "GPSLatitudeRef"
  else if tag_id =? 2 then Some "GPSLatitude"
  else if tag_id =? 3 then Some "GPSLongitudeRef"
  else if tag_id =? 4 then Some "GPSLongitude"
  else None.

(** The capital of a character: of a letter a-z, of a letter of codes 224
    to 254 (the division sign, 247, is none), and "SS" for the sharp s.  The
    micro sign and the y with diaeresis (codes 181 and 255), whose capitals
    have codes above 255, are left as they are. *)
Definition sample_upper_char (c : ascii) : string :=
  let n := nat_of_ascii c in
  if (n =? 223)%nat then "SS"
  else if (((97 <=? n) && (n <=? 122))
           || ((224 <=? n) && (n <=? 254) && negb (n =? 247)))%nat
       then String (ascii_of_nat (n - 32)) ""
       else String c "".

Fixpoint sample_upper (s : string) : string :=
  match s with
  | EmptyString => EmptyString
  | String c rest => sample_upper_char c ++ sample_upper rest
  end.

Definition sample_builtins : builtins :=
  {| bytes_decode := fun bs => Ret (ascii_decode bs);
     str_of_bytes := fun _ => "<bytes>";
     float_of_str := fun _ => Exc;
     float_of_bytes := fun _ => Exc;
     str_of_float := fun _ => "<float>";
     str_of_container := fun _ => Ret "<container>";
     str_upper := sample_upper;
     TAGS := sample_TAGS;
     GPSTAGS := sample_GPSTAGS |}.

(** An image for worked examples: a JPEG of 1536 bytes with the given
    outcome of [_getexif]. *)
Definition sample_image (getexif : res (option (list (Z * value)))) : image :=
  {| img_file_name := "photo.jpg";
     img_format := Some "JPEG";
     img_mode := "RGB";
     img_width := 640;
     img_height := 480;
     img_size := 1536;
     img_getexif := getexif |}.

(** The report for an image without EXIF metadata *)
Definition empty_report (basic : basic_info) : report :=
  {| success := true;
     rep_basic_info := basic;
     exif := [];
     gps := None;
     flags := {| has_gps := false;
                 has_datetime := false;
                 has_camera_model := false |};
     message := "No EXIF metadata found in this image." |}.

(** * Properties *)

(** ** Keys and dictionaries *)

Lemma key_eqb_eq (a b : key) : key_eqb a b = true <-> a = b.
Proof.
  destruct a as [m|s], b as [n|t]; simpl; split; intro H;
    try discriminate; try (inversion H; subst).
  - apply Z.eqb_eq in H. now subst.
  - apply Z.eqb_refl.
  - apply String.eqb_eq in H. now subst.
  - apply String.eqb_refl.
Qed.

Lemma key_eqb_refl (a : key) : key_eqb a a = true.
Proof. now apply key_eqb_eq. Qed.

Lemma existsb_key_In (k : key) (ks : list key) :
  existsb (key_eqb k) ks = true <-> In k ks.
Proof.
  rewrite existsb_exists. split.
  - intros [x [Hin Heq]]. apply key_eqb_eq in Heq. now subst.
  - intro Hin. exists k. split; [assumption | apply key_eqb_refl].
Qed.

Lemma distinct_keys_NoDup (ks : list key) :
  distinct_keys ks = true <-> NoDup ks.
Proof.
  induction ks as [|k ks IH]; simpl.
  - split; [constructor | reflexivity].
  - rewrite andb_true_iff, negb_true_iff, IH. split.
    + intros [Hk Hks]. constructor; [|assumption].
      intro Hin. apply existsb_key_In in Hin. congruence.
    + intro H. inversion H as [|? ? Hk Hks]; subst. split; [|assumption].
      destruct (existsb (key_eqb k) ks) eqn:E; [|reflexivity].
      apply existsb_key_In in E. contradiction.
Qed.

(** A key that is not in the dictionary goes last. *)
Lemma dict_set_fresh (d : dict) (k : key) (v : value) :
  ~ In k (map fst d) -> dict_set d k v = (d ++ [(k, v)])%list.
Proof.
  unfold dict_set. induction d as [|[k' v'] d IH]; simpl; intro Hk.
  - reflexivity.
  - destruct (key_eqb k' k) eqn:E.
    + apply key_eqb_eq in E. subst. exfalso. apply Hk. now left.
    + rewrite IH; [reflexivity|]. intro Hin. apply Hk. now right.
Qed.

(** A key that is in the dictionary keeps its place: the keys are unchanged. *)
Lemma dict_set_keys (d : dict) (k : key) (v : value) :
  In k (map fst d) -> map fst (dict_set d k v) = map fst d.
Proof.
  unfold dict_set. induction d as [|[k' v'] d IH]; simpl; intro Hk.
  - contradiction.
  - destruct (key_eqb k' k) eqn:E; simpl.
    + reflexivity.
    + f_equal. apply IH. destruct Hk as [Hk|Hk]; [|assumption].
      subst. rewrite key_eqb_refl in E. discriminate.
Qed.

Lemma dict_set_values (P : value -> Prop) (d : dict) (k : key) (v : value) :
  Forall (fun kv => P (snd kv)) d -> P v ->
  Forall (fun kv => P (snd kv)) (dict_set d k v).
Proof.
  unfold dict_set. induction d as [|[k' v'] d IH]; simpl; intros Hd Hv.
  - constructor; [assumption | constructor].
  - inversion Hd as [|? ? Hv' Hd']; subst.
    destruct (key_eqb k' k); constructor; auto.
Qed.

Lemma dict_set_key_cases (d : dict) (k : key) (v : value) :
  map fst (dict_set d k v) = map fst d \/
  (~ In k (map fst d) /\ map fst (dict_set d k v) = (map fst d ++ [k])%list).
Proof.
  destruct (existsb (key_eqb k) (map fst d)) eqn:E.
  - left. apply dict_set_keys. now apply existsb_key_In.
  - assert (Hnot : ~ In k (map fst d)).
    { intro Hin. apply existsb_key_In in Hin. congruence. }
    right. split; [assumption|]. rewrite dict_set_fresh by assumption.
    rewrite map_app. reflexivity.
Qed.

(** ** The sanitizer returns, and returns a JSON-safe value *)

Lemma json_safe_dict (d : dict) : json_safe (VDict d) = true <-> safe_items d.
Proof.
  unfold safe_items. cbn [json_safe].
  rewrite andb_true_iff, distinct_keys_NoDup, forallb_forall.
  rewrite !Forall_forall. split.
  - intros [H Hnd]. repeat split; [| |assumption].
    + intros k Hk. apply in_map_iff in Hk. destruct Hk as [kv [<- Hkv]].
      apply H in Hkv. now apply andb_true_iff in Hkv.
    + intros kv Hkv. apply H in Hkv. now apply andb_true_iff in Hkv.
  - intros [Hk [Hv Hnd]]. split; [|assumption].
    intros kv Hkv. apply andb_true_iff. split.
    + apply Hk. now apply in_map.
    + now apply Hv.
Qed.

Lemma safe_items_nil : safe_items [].
Proof. repeat split; constructor. Qed.

Lemma safe_items_set (d : dict) (s : string) (v : value) :
  safe_items d -> json_safe v = true -> safe_items (dict_set d (KStr s) v).
Proof.
  intros [Hk [Hv Hnd]] Hsafe. repeat split.
  - destruct (dict_set_key_cases d (KStr s) v) as [E|[_ E]]; rewrite E.
    + assumption.
    + apply Forall_app. split; [assumption|]. now constructor.
  - now apply (dict_set_values (fun x => json_safe x = true)).
  - destruct (dict_set_key_cases d (KStr s) v) as [E|[Hnot E]]; rewrite E.
    + assumption.
    + apply NoDup_app; [assumption | repeat constructor; intros [] |].
      intros a Ha [<-|[]]. contradiction.
Qed.

Lemma each_returns (fv : value -> res value) (xs : list value) :
  Forall (fun x => exists sv, fv x = Ret sv /\ json_safe sv = true) xs ->
  exists ys, each fv xs = Ret ys /\ forallb json_safe ys = true.
Proof.
  induction 1 as [|x xs [sv [Hx Hsv]] _ [ys [Hys Hsafe]]]; simpl.
  - now exists [].
  - rewrite Hx. simpl. rewrite Hys. simpl. exists (sv :: ys). split.
    + reflexivity.
    + simpl. now rewrite Hsv, Hsafe.
Qed.

Lemma comprehension_returns (fk : key -> key) (fv : value -> res value)
    (items : dict) :
  (forall k, is_str_key (fk k) = true) ->
  Forall (fun kv => exists sv, fv (snd kv) = Ret sv /\ json_safe sv = true)
    items ->
  forall acc, safe_items acc ->
  exists d, comprehension fk fv items acc = Ret d /\ safe_items d.
Proof.
  intros Hfk. induction 1 as [|[k v] items [sv [Hv Hsv]] _ IH]; intros acc Hacc.
  - now exists acc.
  - cbn [comprehension]. simpl in Hv. rewrite Hv. cbn [bind].
    apply IH. specialize (Hfk k). destruct (fk k) as [|s]; [discriminate|].
    now apply safe_items_set.
Qed.

Section SanitizerReturns.

Variable B : builtins.

Lemma collapse_safe (f : F64.float) (v : value) :
  collapse f = Ret v -> json_safe v = true.
Proof.
  unfold collapse. destruct (F64.is_integer f).
  - destruct (F64.to_int f); simpl; intro H; inversion H; reflexivity.
  - intro H. inversion H. reflexivity.
Qed.

Lemma sanitize_float_safe (obj v : value) :
  sanitize_float B obj = Ret (Some v) -> json_safe v = true.
Proof.
  unfold sanitize_float. destruct (py_float B obj) as [f|]; simpl; [|discriminate].
  destruct (collapse f) as [w|] eqn:E; simpl; [|discriminate].
  intro H. inversion H. subst. now apply collapse_safe in E.
Qed.

Lemma sanitize_ratio_safe (obj v : value) :
  sanitize_ratio B obj = Ret (Some v) -> json_safe v = true.
Proof.
  unfold sanitize_ratio.
  destruct (py_or _ _) as [n|]; simpl; [|discriminate].
  destruct (py_or _ _) as [d|]; simpl; [|discriminate].
  destruct (negb (is_none n) && negb (is_none d)); [|discriminate].
  destruct (py_float B n) as [fn|]; simpl; [|discriminate].
  destruct (py_float B d) as [fd|]; simpl; [|discriminate].
  destruct (F64.py_div fn fd) as [q|]; simpl; [|discriminate].
  destruct (collapse q) as [w|] eqn:E; simpl; [|discriminate].
  intro H. inversion H. subst. now apply collapse_safe in E.
Qed.

Lemma sanitize_fallback_returns (obj : value) :
  exists sv, sanitize_fallback B obj = Ret sv /\ json_safe sv = true.
Proof.
  unfold sanitize_fallback. destruct (py_str B obj) as [s|]; simpl.
  - now exists (VStr s).
  - now exists VNone.
Qed.

Lemma sanitize_other_returns (obj : value) :
  exists sv, sanitize_other B obj = Ret sv /\ json_safe sv = true.
Proof.
  unfold sanitize_other.
  destruct (sanitize_float B obj) as [[v|]|] eqn:E1; simpl.
  - exists v. split; [reflexivity|]. now apply sanitize_float_safe in E1.
  - destruct (sanitize_ratio B obj) as [[v|]|] eqn:E2; simpl;
      try apply sanitize_fallback_returns.
    exists v. split; [reflexivity|]. now apply sanitize_ratio_safe in E2.
  - destruct (sanitize_ratio B obj) as [[v|]|] eqn:E2; simpl;
      try apply sanitize_fallback_returns.
    exists v. split; [reflexivity|]. now apply sanitize_ratio_safe in E2.
Qed.

Lemma sanitize_returns (obj : value) :
  exists sv, sanitize_for_json B obj = Ret sv /\ json_safe sv = true.
Proof.
  induction obj using value_nested_ind; cbn [sanitize_for_json].
  - now exists VNone.
  - now exists (VBool b).
  - now exists (VInt n).
  - now exists (VFloat f).
  - now exists (VStr s).
  - now exists (VStr (decode_bytes B bs)).
  - destruct (comprehension_returns (fun k => KStr (str_of_key k))
                (sanitize_for_json B) items (fun _ => eq_refl) H []
                safe_items_nil) as [d [Hd Hsafe]].
    rewrite Hd. simpl. exists (VDict d). split; [reflexivity|].
    now apply json_safe_dict.
  - destruct (each_returns _ xs H) as [ys [Hys Hsafe]].
    rewrite Hys. simpl. now exists (VList ys).
  - destruct (each_returns _ xs H) as [ys [Hys Hsafe]].
    rewrite Hys. simpl. now exists (VList ys).
  - apply sanitize_other_returns.
Qed.

End SanitizerReturns.

(** C1.  For every raw tag value [obj] (whatever the builtins of the
    interpreter do, and however the value is nested), [sanitize_for_json]
    returns: it never raises, and what it returns is JSON-safe ([None], a
    [bool], an [int], a [float], a [str], a list of such values, or a
    dictionary from distinct [str] keys to such values). *)
Theorem sanitize_for_json_total (B : builtins) (obj : value) :
  exists sv, sanitize_for_json B obj = Ret sv /\ json_safe sv = true.
Proof. apply sanitize_returns. Qed.

(** ** Sanitizing a JSON-safe value changes nothing *)

Lemma each_fixed (fv : value -> res value) (xs : list value) :
  Forall (fun x => fv x = Ret x) xs -> each fv xs = Ret xs.
Proof.
  induction 1 as [|x xs Hx _ IH]; simpl.
  - reflexivity.
  - now rewrite Hx, IH.
Qed.

Lemma comprehension_fixed (fk : key -> key) (fv : value -> res value)
    (items : dict) :
  Forall (fun kv => fk (fst kv) = fst kv /\ fv (snd kv) = Ret (snd kv)) items ->
  forall acc, NoDup (map fst (acc ++ items)) ->
  comprehension fk fv items acc = Ret (acc ++ items)%list.
Proof.
  induction 1 as [|[k v] items [Hk Hv] _ IH]; intros acc Hnd.
  - now rewrite app_nil_r.
  - cbn [comprehension]. simpl in Hk, Hv. rewrite Hv, Hk. cbn [bind].
    assert (Hfresh : ~ In k (map fst acc)).
    { rewrite map_app in Hnd. apply NoDup_remove_2 in Hnd.
      intro Hin. apply Hnd. apply in_or_app. now left. }
    rewrite dict_set_fresh by assumption.
    rewrite IH.
    + now rewrite <- app_assoc.
    + now rewrite <- app_assoc.
Qed.

Lemma sanitize_fixed (B : builtins) (sv : value) :
  json_safe sv = true -> sanitize_for_json B sv = Ret sv.
Proof.
  induction sv using value_nested_ind; intro Hsafe;
    try reflexivity; try discriminate.
  - (* dictionaries *)
    apply json_safe_dict in Hsafe. destruct Hsafe as [Hk [Hv Hnd]].
    cbn [sanitize_for_json].
    rewrite (comprehension_fixed _ _ items).
    + reflexivity.
    + rewrite Forall_forall in *. intros [k v] Hin. simpl. split.
      * assert (Hs : is_str_key k = true) by (apply Hk; now apply (in_map fst) in Hin).
        destruct k; [discriminate | reflexivity].
      * apply (H (k, v) Hin). now apply (Hv (k, v)).
    + assumption.
  - (* lists *)
    cbn [sanitize_for_json json_safe] in *.
    rewrite each_fixed; [reflexivity|].
    rewrite Forall_forall in *. intros x Hin. apply H; [assumption|].
    rewrite forallb_forall in Hsafe. now apply Hsafe.
Qed.

(** C7.  The sanitizer is idempotent: whatever [sanitize_for_json] returns,
    sanitizing it again returns it unchanged. *)
Theorem sanitize_for_json_idempotent (B : builtins) (obj sv : value) :
  sanitize_for_json B obj = Ret sv ->
  sanitize_for_json B sv = Ret sv.
Proof.
  intro Himage. apply sanitize_fixed.
  destruct (sanitize_returns B obj) as [sv' [Hret Hsafe]].
  rewrite Himage in Hret. inversion Hret. subst. assumption.
Qed.

(** A dictionary with a numeric key, bytes and a nested tuple: its image
    is a fixed point. *)
Lemma sanitize_for_json_idempotent_witness :
  sanitize_for_json sample_builtins
    (VDict [(KInt 2, VTuple [VInt 10; VBytes [Byte.x4e]]);
            (KStr "2", VBool true)])
  = Ret (VDict [(KStr "2", VBool true)]) /\
  sanitize_for_json sample_builtins (VDict [(KStr "2", VBool true)])
  = Ret (VDict [(KStr "2", VBool true)]).
Proof.
  split.
  - reflexivity.
  - apply (sanitize_for_json_idempotent sample_builtins
             (VDict [(KInt 2, VTuple [VInt 10; VBytes [Byte.x4e]]);
                     (KStr "2", VBool true)])).
    reflexivity.
Defined.

(** ** Duck-typed rationals in the sanitizer *)

(** An object of another class that does not convert with [float] and whose
    [numerator] and [denominator] attributes are true values that do: the
    sanitizer returns their quotient, as an [int] when it is a whole number. *)
Lemma sanitize_ratio_truthy (B : builtins) (tr : res bool) (st : res string)
    (a2 a4 : attr value) (num den : value) (n d : F64.float) (v : value) :
  py_truthy num = Ret true -> py_truthy den = Ret true ->
  py_float B num = Ret n -> py_float B den = Ret d ->
  F64.is_zero d = false ->
  collapse (F64.div n d) = Ret v ->
  sanitize_for_json B (VObj Exc tr st (AttrValue num) a2 (AttrValue den) a4)
  = Ret v.
Proof.
  intros Hn Hd Hfn Hfd Hz Hc.
  cbn [sanitize_for_json]. unfold sanitize_other, sanitize_float, sanitize_ratio.
  cbn [py_float bind try_pass py_getattr outcome_of_attr].
  unfold py_or. cbn [bind]. rewrite Hn, Hd. cbn [bind].
  assert (Hnn : is_none num = false) by (destruct num; simpl in *; congruence).
  assert (Hdn : is_none den = false) by (destruct den; simpl in *; congruence).
  rewrite Hnn, Hdn, Hfn, Hfd. cbn [negb andb bind].
  unfold F64.py_div. rewrite Hz. cbn [bind]. rewrite Hc. reflexivity.
Qed.

(** An object with numerator 3 and denominator 2 gives 1.5; with numerator
    6, the integer 3. *)
Lemma sanitize_ratio_truthy_witness :
  sanitize_for_json sample_builtins
    (VObj Exc (Ret true) (Ret "3/2")
       (AttrValue (VInt 3)) AttrMissing (AttrValue (VInt 2)) AttrMissing)
  = Ret (VFloat (S754_finite false 6755399441055744 (-52))) /\
  sanitize_for_json sample_builtins
    (VObj Exc (Ret true) (Ret "6/2")
       (AttrValue (VInt 6)) AttrMissing (AttrValue (VInt 2)) AttrMissing)
  = Ret (VInt 3).
Proof.
  split.
  - apply (sanitize_ratio_truthy sample_builtins (Ret true) (Ret "3/2")
             AttrMissing AttrMissing (VInt 3) (VInt 2)
             (F64.of_Z 3) (F64.of_Z 2)); reflexivity.
  - apply (sanitize_ratio_truthy sample_builtins (Ret true) (Ret "6/2")
             AttrMissing AttrMissing (VInt 6) (VInt 2)
             (F64.of_Z 6) (F64.of_Z 2)); reflexivity.
Defined.

(** C8.  An object that does not convert with [float] and exposes
    [numerator = 0] and [denominator = 5]: the quotient is the whole number
    0, yet [sanitize_for_json] returns the object's string, because
    [getattr(obj, "numerator", None) or getattr(obj, "num", None)] takes the
    numerator 0 for a missing one. *)
Theorem sanitize_for_json_zero_numerator (B : builtins) :
  (q <- ratio B (VInt 0) (VInt 5) ;; collapse q) = Ret (VInt 0) /\
  sanitize_for_json B
    (VObj Exc (Ret true) (Ret "Fraction(0, 5)")
       (AttrValue (VInt 0)) AttrMissing (AttrValue (VInt 5)) AttrMissing)
  = Ret (VStr "Fraction(0, 5)").
Proof. split; vm_compute; reflexivity. Qed.

(** ** The tag resolver *)

Lemma exif_tag_name_known (B : builtins) (tag_id : Z) (name : string) :
  TAGS B tag_id = Some name -> exif_tag_name B tag_id = name.
Proof. unfold exif_tag_name. now intros ->. Qed.

Lemma exif_tag_name_unknown (B : builtins) (tag_id : Z) :
  TAGS B tag_id = None -> exif_tag_name B tag_id = str_of_Z tag_id.
Proof. unfold exif_tag_name. now intros ->. Qed.

Lemma gps_sub_tag_known (B : builtins) (tag_id : Z) (name : string) :
  GPSTAGS B tag_id = Some name -> gps_sub_tag B (KInt tag_id) = KStr name.
Proof. unfold gps_sub_tag. now intros ->. Qed.

(** C9.  For a numeric ID that is not in the table, the EXIF variant of the
    resolver returns the stringified ID, but the GPS variant,
    [GPSTAGS.get(key, key)], returns the ID itself, a number and not a
    string. *)
Theorem gps_sub_tag_unknown_not_stringified (B : builtins) (tag_id : Z) :
  TAGS B tag_id = None -> GPSTAGS B tag_id = None ->
  exif_tag_name B tag_id = str_of_Z tag_id /\
  gps_sub_tag B (KInt tag_id) = KInt tag_id /\
  gps_sub_tag B (KInt tag_id) <> KStr (str_of_Z tag_id).
Proof.
  intros HT HG. split; [now apply exif_tag_name_unknown|].
  unfold gps_sub_tag. rewrite HG. split; [reflexivity | discriminate].
Qed.

(** The sub-tag 999 stays a number, also in the GPS block that
    [get_gps_info] returns. *)
Lemma gps_sub_tag_unknown_not_stringified_witness :
  TAGS sample_builtins 999 = None /\
  GPSTAGS sample_builtins 999 = None /\
  exif_tag_name sample_builtins 999 = "999" /\
  gps_sub_tag sample_builtins (KInt 999) = KInt 999 /\
  get_gps_info sample_builtins [("GPSInfo", VDict [(KInt 999, VInt 1)])]
  = Ret (Some {| gps_raw := [(KInt 999, VInt 1)];
                 latitude := None;
                 longitude := None |}) /\
  json_safe (VDict [(KInt 999, VInt 1)]) = false.
Proof.
  split; [reflexivity|]. split; [reflexivity|].
  destruct (gps_sub_tag_unknown_not_stringified sample_builtins 999
              eq_refl eq_refl) as [H1 [H2 _]].
  split; [exact H1|]. split; [exact H2|]. split; reflexivity.
Defined.

(** ** GPS degree conversion *)

Section Degrees.

Variable B : builtins.

Lemma convert_to_degrees_returns (v : value) :
  exists r, _convert_to_degrees B v = Ret r.
Proof.
  unfold _convert_to_degrees.
  match goal with |- exists r, try_except ?body _ = _ =>
    destruct body as [r|]; simpl; eauto
  end.
Qed.

(** A triple whose three elements convert *)
Lemma convert_to_degrees_triple (v a b c : value) (d m s : F64.float) :
  seq_items v = Some [a; b; c] ->
  _to_float_rational B a = Ret d ->
  _to_float_rational B b = Ret m ->
  _to_float_rational B c = Ret s ->
  _convert_to_degrees B v = Ret (Some (dms d m s)).
Proof.
  intros Hv Ha Hb Hc. unfold _convert_to_degrees.
  rewrite Hv, Ha, Hb, Hc. reflexivity.
Qed.


(** A value that is not a triple and does not convert as a whole *)
Lemma convert_to_degrees_single_fails (v : value) :
  (forall a b c, seq_items v <> Some [a; b; c]) ->
  _to_float_rational B v = Exc ->
  _convert_to_degrees B v = Ret None.
Proof.
  intros Hv H. unfold _convert_to_degrees.
  destruct (seq_items v) as [[|a [|b [|c [|e l]]]]|]; rewrite ?H; try reflexivity.
  exfalso. now apply (Hv a b c).
Qed.

(** Lists and tuples do not convert with [float], and have none of the
    rational attributes: only a pair converts. *)
Lemma to_float_rational_sequence (v : value) (xs : list value) :
  seq_items v = Some xs -> List.length xs <> 2%nat ->
  _to_float_rational B v = Exc.
Proof.
  intros Hv Hlen. unfold _to_float_rational.
  destruct v; try discriminate; simpl in Hv; inversion Hv; subst;
    cbn [py_float try_except seq_items];
    destruct xs as [|x [|y [|z l]]]; try reflexivity;
    exfalso; now apply Hlen.
Qed.




Lemma to_float_rational_none : _to_float_rational B VNone = Exc.
Proof. reflexivity. Qed.

(** The rational attributes are read with the same [or] as in the sanitizer:
    an object with numerator 0 and denominator 1 that does not convert with
    [float] does not convert here either. *)
Lemma to_float_rational_zero_numerator (tr : res bool) (st : res string) :
  _to_float_rational B
    (VObj Exc tr st (AttrValue (VInt 0)) AttrMissing (AttrValue (VInt 1))
       AttrMissing)
  = Exc.
Proof. reflexivity. Qed.

(** An element that has a rational reading converts to it. *)
Lemma rational_value_converts (v : value) (f : F64.float) :
  rational_value B v f -> _to_float_rational B v = Ret f.
Proof.
  intro H. unfold _to_float_rational.
  destruct H as [v f Hf
                |v num den n d Hv Hn Hd Hz
                |tr st a2 a4 num den n d Htn Htd Hn Hd Hz
                |tr st num den n d Htn Htd Hn Hd Hz].
  - now rewrite Hf.
  - assert (Hf : py_float B v = Exc)
      by (destruct v; try discriminate; reflexivity).
    rewrite Hf, Hv. cbn [try_except]. unfold ratio, F64.py_div.
    rewrite Hn, Hd. cbn [bind]. now rewrite Hz.
  - cbn [py_float try_except seq_items py_getattr outcome_of_attr].
    unfold py_or. cbn [bind]. rewrite Htn, Htd. cbn [bind].
    assert (Hnn : is_none num = false) by (destruct num; simpl in *; congruence).
    assert (Hdn : is_none den = false) by (destruct den; simpl in *; congruence).
    rewrite Hnn, Hdn. cbn [negb andb]. unfold ratio, F64.py_div.
    rewrite Hn, Hd. cbn [bind]. now rewrite Hz.
  - cbn [py_float try_except seq_items py_getattr outcome_of_attr].
    unfold py_or. cbn [bind py_truthy].
    rewrite Htn, Htd. cbn [negb andb]. unfold ratio, F64.py_div.
    rewrite Hn, Hd. cbn [bind]. now rewrite Hz.
Qed.

(** The decimal degrees of a triple whose elements have rational readings *)
Lemma convert_to_degrees_rational (t a b c : value) (d m s : F64.float) :
  seq_items t = Some [a; b; c] ->
  rational_value B a d -> rational_value B b m -> rational_value B c s ->
  _convert_to_degrees B t
  = Ret (Some (F64.add (F64.add d (F64.div m (F64.of_Z 60)))
                 (F64.div s (F64.of_Z 3600)))).
Proof.
  intros Ht Ha Hb Hc.
  apply (convert_to_degrees_triple t a b c d m s Ht);
    now apply rational_value_converts.
Qed.

End Degrees.





(** ** Signed coordinates *)

Section Coordinates.

Variable B : builtins.

Lemma ref_is_text (c : ascii) (ref : value) :
  is_text_or_none ref = true ->
  ref_is B (String c "") (decode_if_bytes B ref) = Ret (ref_begins B c ref).
Proof.
  unfold ref_is, ref_begins.
  destruct ref; try discriminate; intros _;
    cbn [decode_if_bytes py_truthy bind ref_text].
  - reflexivity.
  - destruct (String.eqb s ""); reflexivity.
  - destruct (String.eqb (decode_bytes B bs) ""); reflexivity.
Qed.

(** On a reference whose first character is of the ASCII range, the test
    looks at that character only. *)
Lemma ref_begins_ascii (c x : ascii) (rest : string) (ref : value) :
  upper_on_ascii B ->
  ref_text B ref = Some (String x rest) ->
  (nat_of_ascii x < 128)%nat ->
  ref_begins B c ref = Ascii.eqb (ascii_capital x) c.
Proof.
  intros Hup Href Hx. unfold ref_begins. rewrite Href.
  cbn [String.eqb negb andb]. rewrite (Hup x rest Hx).
  unfold startswith. cbn [String.prefix].
  destruct (ascii_dec c (ascii_capital x)) as [->|Hne].
  - rewrite Ascii.eqb_refl. now destruct (str_upper B rest).
  - symmetry. apply Ascii.eqb_neq. congruence.
Qed.

Lemma coordinate_returns (c : ascii) (raw ref : value) :
  is_text_or_none ref = true ->
  exists r, coordinate B (String c "") raw (decode_if_bytes B ref) = Ret r /\
    (r = None <-> _convert_to_degrees B raw = Ret None) /\
    forall x, _convert_to_degrees B raw = Ret (Some x) ->
      r = Some (if ref_begins B c ref then F64.opp x else x).
Proof.
  intro Href. unfold coordinate.
  destruct (convert_to_degrees_returns B raw) as [[x|] ->]; cbn [bind].
  - rewrite ref_is_text by assumption. cbn [bind].
    eexists. split; [reflexivity|]. split.
    + split; discriminate.
    + intros y Hy. inversion Hy. reflexivity.
  - exists None. split; [reflexivity|]. split; [tauto | discriminate].
Qed.

Lemma comprehension_total (fk : key -> key) (fv : value -> res value)
    (items : dict) :
  (forall v, exists sv, fv v = Ret sv) ->
  forall acc, exists d, comprehension fk fv items acc = Ret d.
Proof.
  intro Hfv. induction items as [|[k v] items IH]; intro acc; simpl.
  - now exists acc.
  - destruct (Hfv v) as [sv ->]. cbn [bind]. apply IH.
Qed.

Lemma sanitize_values_returns (d : dict) :
  exists d', sanitize_values B d = Ret d'.
Proof.
  apply comprehension_total. intro v.
  destruct (sanitize_returns B v) as [sv [H _]]. now exists sv.
Qed.

(** What [get_gps_info] returns for a non-empty GPS dictionary whose two
    references are text or missing *)
Lemma get_gps_info_returns (exif_data : exif_dict) (items : dict) :
  assoc_get String.eqb exif_data "GPSInfo" = Some (VDict items) ->
  items <> [] ->
  let raw := gps_data_raw_of B items in
  let lat_ref := dict_get_or_none raw (KStr "GPSLatitudeRef") in
  let lon_ref := dict_get_or_none raw (KStr "GPSLongitudeRef") in
  is_text_or_none lat_ref = true ->
  is_text_or_none lon_ref = true ->
  exists g, get_gps_info B exif_data = Ret (Some g) /\
    (forall t x,
        dict_get raw (KStr "GPSLatitude") = Some t ->
        _convert_to_degrees B t = Ret (Some x) ->
        latitude g = Some (if ref_begins B "S" lat_ref then F64.opp x else x))
    /\
    (forall t x,
        dict_get raw (KStr "GPSLongitude") = Some t ->
        _convert_to_degrees B t = Ret (Some x) ->
        longitude g = Some (if ref_begins B "W" lon_ref then F64.opp x else x)).
Proof.
  intros Hinfo Hne raw lat_ref lon_ref Hlat Hlon.
  unfold get_gps_info. rewrite Hinfo. cbn [py_truthy bind].
  destruct items as [|kv items']; [contradiction|].
  cbn [List.length Nat.eqb negb].
  fold raw. fold lat_ref. fold lon_ref.
  destruct (sanitize_values_returns raw) as [d Hd].
  destruct (dict_get raw (KStr "GPSLatitude")) as [tlat|];
    destruct (dict_get raw (KStr "GPSLongitude")) as [tlon|].
  - destruct (coordinate_returns "S" tlat lat_ref Hlat) as [r1 [-> [_ H1]]].
    destruct (coordinate_returns "W" tlon lon_ref Hlon) as [r2 [-> [_ H2]]].
    cbn [bind]. rewrite Hd. cbn [bind]. eexists. split; [reflexivity|].
    cbn [latitude longitude]. split.
    + intros t x Ht Hx. inversion Ht. subst. now apply H1.
    + intros t x Ht Hx. inversion Ht. subst. now apply H2.
  - destruct (coordinate_returns "S" tlat lat_ref Hlat) as [r1 [-> [_ H1]]].
    cbn [bind]. rewrite Hd. cbn [bind]. eexists. split; [reflexivity|].
    cbn [latitude longitude]. split.
    + intros t x Ht Hx. inversion Ht. subst. now apply H1.
    + discriminate.
  - destruct (coordinate_returns "W" tlon lon_ref Hlon) as [r2 [-> [_ H2]]].
    cbn [bind]. rewrite Hd. cbn [bind]. eexists. split; [reflexivity|].
    cbn [latitude longitude]. split.
    + discriminate.
    + intros t x Ht Hx. inversion Ht. subst. now apply H2.
  - cbn [bind]. rewrite Hd. cbn [bind]. eexists. split; [reflexivity|].
    split; discriminate.
Qed.

End Coordinates.

Lemma sample_upper_on_ascii : upper_on_ascii sample_builtins.
Proof.
  intros c rest Hc. cbn [str_upper sample_builtins sample_upper].
  unfold sample_upper_char, ascii_capital.
  assert (H223 : ((nat_of_ascii c =? 223) = false)%nat)
    by (apply Nat.eqb_neq; lia).
  assert (H224 : ((224 <=? nat_of_ascii c) = false)%nat)
    by (apply Nat.leb_gt; lia).
  rewrite H223, H224. cbn [andb orb].
  rewrite orb_false_r.
  destruct ((97 <=? nat_of_ascii c) && (nat_of_ascii c <=? 122))%nat;
    reflexivity.
Qed.

(** C2.  For a GPS dictionary whose hemisphere references are text or
    missing, [get_gps_info] returns a report in which a latitude (longitude)
    given as a sequence of three elements with the rational readings [d],
    [m] and [s] is [d + m/60 + s/3600], negated exactly when the latitude
    (longitude) reference is text that is not empty and that, uppercased,
    begins with S (W).  For a reference whose first character is of the
    ASCII range that is: exactly when this character, uppercased, is S (W).
    Without a reference the sign is unchanged.  In particular (10, 30, 0)
    gives 10.5 with the reference N and -10.5 with the reference S, and
    (10, 30, 36) without a reference gives 10.51. *)
Theorem get_gps_info_coordinates :
  (forall (B : builtins) (exif_data : exif_dict) (items : dict),
      assoc_get String.eqb exif_data "GPSInfo" = Some (VDict items) ->
      items <> [] ->
      let raw := gps_data_raw_of B items in
      let lat_ref := dict_get_or_none raw (KStr "GPSLatitudeRef") in
      let lon_ref := dict_get_or_none raw (KStr "GPSLongitudeRef") in
      is_text_or_none lat_ref = true ->
      is_text_or_none lon_ref = true ->
      exists g, get_gps_info B exif_data = Ret (Some g) /\
        (forall t a b c d m s,
            dict_get raw (KStr "GPSLatitude") = Some t ->
            seq_items t = Some [a; b; c] ->
            rational_value B a d ->
            rational_value B b m ->
            rational_value B c s ->
            let x := F64.add (F64.add d (F64.div m (F64.of_Z 60)))
                       (F64.div s (F64.of_Z 3600)) in
            latitude g = Some (if ref_begins B "S" lat_ref then F64.opp x else x)
            /\
            (dict_get raw (KStr "GPSLatitudeRef") = None -> latitude g = Some x)
            /\
            (forall c0 rest,
                upper_on_ascii B ->
                ref_text B lat_ref = Some (String c0 rest) ->
                (nat_of_ascii c0 < 128)%nat ->
                latitude g
                = Some (if Ascii.eqb (ascii_capital c0) "S" then F64.opp x else x)))
        /\
        (forall t a b c d m s,
            dict_get raw (KStr "GPSLongitude") = Some t ->
            seq_items t = Some [a; b; c] ->
            rational_value B a d ->
            rational_value B b m ->
            rational_value B c s ->
            let x := F64.add (F64.add d (F64.div m (F64.of_Z 60)))
                       (F64.div s (F64.of_Z 3600)) in
            longitude g = Some (if ref_begins B "W" lon_ref then F64.opp x else x)
            /\
            (dict_get raw (KStr "GPSLongitudeRef") = None -> longitude g = Some x)
            /\
            (forall c0 rest,
                upper_on_ascii B ->
                ref_text B lon_ref = Some (String c0 rest) ->
                (nat_of_ascii c0 < 128)%nat ->
                longitude g
                = Some (if Ascii.eqb (ascii_capital c0) "W" then F64.opp x else x))))
  /\
  (forall B : builtins,
      upper_on_ascii B ->
      exists g,
        get_gps_info B
          [("GPSInfo",
            VDict [(KStr "GPSLatitude", VTuple [VInt 10; VInt 30; VInt 0]);
                   (KStr "GPSLatitudeRef", VStr "N")])]
        = Ret (Some g) /\
        latitude g = Some f10_5) /\
  (forall B : builtins,
      upper_on_ascii B ->
      exists g,
        get_gps_info B
          [("GPSInfo",
            VDict [(KStr "GPSLatitude", VTuple [VInt 10; VInt 30; VInt 0]);
                   (KStr "GPSLatitudeRef", VStr "S")])]
        = Ret (Some g) /\
        latitude g = Some fm10_5) /\
  (forall B : builtins,
      exists g,
        get_gps_info B
          [("GPSInfo",
            VDict [(KStr "GPSLatitude", VTuple [VInt 10; VInt 30; VInt 36])])]
        = Ret (Some g) /\
        latitude g = Some f10_51).
Proof.
  match goal with |- ?general /\ _ => assert (Hgen : general) end.
  { intros B exif_data items Hinfo Hne raw lat_ref lon_ref Hlat Hlon.
    destruct (get_gps_info_returns B exif_data items Hinfo Hne Hlat Hlon)
      as [g [Hg [H1 H2]]].
    fold raw in H1, H2. fold lat_ref in H1. fold lon_ref in H2.
    exists g. split; [exact Hg|]. split.
    - intros t a b c d m s Ht Hseq Ha Hb Hc x.
      pose proof (convert_to_degrees_rational B t a b c d m s Hseq Ha Hb Hc)
        as Hx.
      pose proof (H1 t _ Ht Hx) as Hl. fold x in Hl.
      split; [exact Hl|]. split.
      + intro Hnone. rewrite Hl. unfold lat_ref, dict_get_or_none.
        now rewrite Hnone.
      + intros c0 rest Hup Href Hc0. rewrite Hl.
        now rewrite (ref_begins_ascii B "S" c0 rest lat_ref Hup Href Hc0).
    - intros t a b c d m s Ht Hseq Ha Hb Hc x.
      pose proof (convert_to_degrees_rational B t a b c d m s Hseq Ha Hb Hc)
        as Hx.
      pose proof (H2 t _ Ht Hx) as Hl. fold x in Hl.
      split; [exact Hl|]. split.
      + intro Hnone. rewrite Hl. unfold lon_ref, dict_get_or_none.
        now rewrite Hnone.
      + intros c0 rest Hup Href Hc0. rewrite Hl.
        now rewrite (ref_begins_ascii B "W" c0 rest lon_ref Hup Href Hc0). }
  split; [exact Hgen|]. split; [|split].
  - intros B Hup.
    destruct (Hgen B
                [("GPSInfo",
                  VDict [(KStr "GPSLatitude", VTuple [VInt 10; VInt 30; VInt 0]);
                         (KStr "GPSLatitudeRef", VStr "N")])]
                _ eq_refl ltac:(discriminate) eq_refl eq_refl)
      as [g [Hg [Hlat _]]].
    exists g. split; [exact Hg|].
    destruct (Hlat _ (VInt 10) (VInt 30) (VInt 0) _ _ _ eq_refl eq_refl
                (RV_float B (VInt 10) _ eq_refl)
                (RV_float B (VInt 30) _ eq_refl)
                (RV_float B (VInt 0) _ eq_refl)) as [_ [_ H]].
    rewrite (H "N"%char "" Hup eq_refl ltac:(vm_compute; lia)).
    vm_compute. reflexivity.
  - intros B Hup.
    destruct (Hgen B
                [("GPSInfo",
                  VDict [(KStr "GPSLatitude", VTuple [VInt 10; VInt 30; VInt 0]);
                         (KStr "GPSLatitudeRef", VStr "S")])]
                _ eq_refl ltac:(discriminate) eq_refl eq_refl)
      as [g [Hg [Hlat _]]].
    exists g. split; [exact Hg|].
    destruct (Hlat _ (VInt 10) (VInt 30) (VInt 0) _ _ _ eq_refl eq_refl
                (RV_float B (VInt 10) _ eq_refl)
                (RV_float B (VInt 30) _ eq_refl)
                (RV_float B (VInt 0) _ eq_refl)) as [_ [_ H]].
    rewrite (H "S"%char "" Hup eq_refl ltac:(vm_compute; lia)).
    vm_compute. reflexivity.
  - intro B.
    destruct (Hgen B
                [("GPSInfo",
                  VDict [(KStr "GPSLatitude",
                          VTuple [VInt 10; VInt 30; VInt 36])])]
                _ eq_refl ltac:(discriminate) eq_refl eq_refl)
      as [g [Hg [Hlat _]]].
    exists g. split; [exact Hg|].
    destruct (Hlat _ (VInt 10) (VInt 30) (VInt 36) _ _ _ eq_refl eq_refl
                (RV_float B (VInt 10) _ eq_refl)
                (RV_float B (VInt 30) _ eq_refl)
                (RV_float B (VInt 36) _ eq_refl)) as [_ [H _]].
    rewrite (H eq_refl). vm_compute. reflexivity.
Qed.

(** Numeric sub-tag IDs, a reference in bytes and one in lower case, minutes
    given as an object with numerator 30 and denominator 1, and seconds given
    as the pair (45, 2): the latitude is -10.51 and the longitude -20.25625
    = -5701627496995226 / 2^48. *)
Lemma get_gps_info_coordinates_witness :
  exists g,
    get_gps_info sample_builtins
      [("GPSInfo",
        VDict [(KInt 1, VBytes [Byte.x53]);
               (KInt 2,
                VTuple [VInt 10;
                        VObj Exc (Ret true) (Ret "30") (AttrValue (VInt 30))
                          AttrMissing (AttrValue (VInt 1)) AttrMissing;
                        VInt 36]);
               (KInt 3, VStr "w");
               (KInt 4, VList [VInt 20; VInt 15; VTuple [VInt 45; VInt 2]])])]
    = Ret (Some g) /\
    latitude g = Some fm10_51 /\
    longitude g = Some (S754_finite true 5701627496995226 (-48)).
Proof.
  destruct (proj1 get_gps_info_coordinates sample_builtins
              [("GPSInfo",
                VDict [(KInt 1, VBytes [Byte.x53]);
                       (KInt 2,
                        VTuple [VInt 10;
                                VObj Exc (Ret true) (Ret "30")
                                  (AttrValue (VInt 30)) AttrMissing
                                  (AttrValue (VInt 1)) AttrMissing;
                                VInt 36]);
                       (KInt 3, VStr "w");
                       (KInt 4,
                        VList [VInt 20; VInt 15; VTuple [VInt 45; VInt 2]])])]
              _ eq_refl ltac:(discriminate) eq_refl eq_refl)
    as [g [Hg [Hlat Hlon]]].
  exists g. split; [exact Hg|]. split.
  - destruct (Hlat _ (VInt 10) _ (VInt 36) _ _ _ eq_refl eq_refl
                (RV_float sample_builtins (VInt 10) _ eq_refl)
                (RV_attrs sample_builtins (Ret true) (Ret "30") AttrMissing
                   AttrMissing (VInt 30) (VInt 1) _ _
                   eq_refl eq_refl eq_refl eq_refl eq_refl)
                (RV_float sample_builtins (VInt 36) _ eq_refl)) as [H _].
    rewrite H. vm_compute. reflexivity.
  - destruct (Hlon _ (VInt 20) (VInt 15) (VTuple [VInt 45; VInt 2]) _ _ _
                eq_refl eq_refl
                (RV_float sample_builtins (VInt 20) _ eq_refl)
                (RV_float sample_builtins (VInt 15) _ eq_refl)
                (RV_pair sample_builtins (VTuple [VInt 45; VInt 2])
                   (VInt 45) (VInt 2) _ _
                   eq_refl eq_refl eq_refl eq_refl)) as [H _].
    rewrite H. vm_compute. reflexivity.
Defined.

(** The reference is the sharp s.  Its first and only character, uppercased,
    is the text SS and not the character S; the uppercased reference begins
    with S all the same, and the latitude of (10, 30, 0) is -10.5. *)
Lemma get_gps_info_coordinates_sharp_s :
  str_upper sample_builtins sharp_s = "SS" /\
  str_upper sample_builtins sharp_s <> "S" /\
  exists g,
    get_gps_info sample_builtins
      [("GPSInfo",
        VDict [(KStr "GPSLatitude", VTuple [VInt 10; VInt 30; VInt 0]);
               (KStr "GPSLatitudeRef", VStr sharp_s)])]
    = Ret (Some g) /\
    latitude g = Some fm10_5.
Proof.
  split; [reflexivity|]. split; [discriminate|].
  eexists. split; [vm_compute; reflexivity | reflexivity].
Qed.

(** ** Binary64 arithmetic that is exact

    Integers below 2^53 convert to floats without rounding, dividing such a
    float by 1024 only lowers its exponent, and comparing it with 1024
    compares exponents. *)

Lemma digits2_pos_size (p : positive) : digits2_pos p = Pos.size p.
Proof. induction p; simpl; congruence. Qed.

Lemma digits2_pos_bounds (p : positive) :
  2 ^ (Zpos (digits2_pos p) - 1) <= Zpos p < 2 ^ Zpos (digits2_pos p).
Proof.
  rewrite digits2_pos_size.
  pose proof (Pos.size_gt p) as Hgt. pose proof (Pos.size_le p) as Hle.
  split.
  - apply Pos2Z.pos_le_pos in Hle. rewrite Pos2Z.inj_pow in Hle.
    replace (Zpos (Pos.size p)) with (Z.succ (Zpos (Pos.size p) - 1)) in Hle by lia.
    rewrite Z.pow_succ_r in Hle by lia. lia.
  - apply Pos2Z.pos_lt_pos in Hgt. now rewrite Pos2Z.inj_pow in Hgt.
Qed.

Lemma iter_xO_value (p k : positive) :
  Zpos (Pos.iter xO p k) = Zpos p * 2 ^ Zpos k.
Proof.
  induction k using Pos.peano_ind.
  - simpl. lia.
  - rewrite Pos.iter_succ, Pos2Z.inj_xO, IHk, Pos2Z.inj_succ, Z.pow_succ_r by lia.
    lia.
Qed.

Lemma iter_xO_digits (p k : positive) :
  digits2_pos (Pos.iter xO p k) = (digits2_pos p + k)%positive.
Proof.
  induction k using Pos.peano_ind.
  - simpl. lia.
  - rewrite Pos.iter_succ. simpl. rewrite IHk. lia.
Qed.

Lemma binary_round_aux_exact (s : bool) (m : positive) (e : Z) :
  digits2_pos m = 53%positive -> -1074 <= e <= 971 ->
  binary_round_aux F64.prec F64.emax s (Zpos m) e loc_Exact = S754_finite s m e.
Proof.
  intros Hd He. unfold binary_round_aux, shr_fexp, fexp, emin, Zdigits2.
  rewrite Hd. unfold F64.prec, F64.emax.
  replace (Z.max (53 + e - 53) (3 - 1024 - 53) - e) with 0 by lia.
  cbn [shr shr_record_of_loc shr_m loc_of_shr_record round_nearest_even].
  rewrite Hd.
  replace (Z.max (53 + e - 53) (3 - 1024 - 53) - e) with 0 by lia.
  cbn [shr shr_m].
  destruct (e <=? 1024 - 53) eqn:E; [reflexivity|].
  apply Z.leb_gt in E. lia.
Qed.

Lemma of_Z_exact (p : positive) :
  Zpos (digits2_pos p) <= 53 ->
  exists m,
    F64.of_Z (Zpos p) = S754_finite false m (Zpos (digits2_pos p) - 53) /\
    digits2_pos m = 53%positive /\
    Zpos m = Zpos p * 2 ^ (53 - Zpos (digits2_pos p)).
Proof.
  intro HD. unfold F64.of_Z, binary_normalize, binary_round, shl_align, fexp, emin.
  unfold F64.prec, F64.emax.
  replace (Z.max (Zpos (digits2_pos p) + 0 - 53) (3 - 1024 - 53) - 0)
    with (Zpos (digits2_pos p) - 53) by lia.
  replace (Z.max (Zpos (digits2_pos p) + 0 - 53) (3 - 1024 - 53))
    with (Zpos (digits2_pos p) - 53) by lia.
  destruct (Zpos (digits2_pos p) - 53) as [|d|d] eqn:E; [| lia |].
  - exists p. split.
    + apply binary_round_aux_exact; [lia | lia].
    + split; [lia|]. replace (53 - Zpos (digits2_pos p)) with 0 by lia. lia.
  - exists (Pos.iter xO p d).
    assert (Hdig : digits2_pos (Pos.iter xO p d) = 53%positive)
      by (rewrite iter_xO_digits; lia).
    split; [|split].
    + apply binary_round_aux_exact; [exact Hdig | lia].
    + exact Hdig.
    + rewrite iter_xO_value. f_equal. f_equal. lia.
Qed.



Lemma round_half_even_scale (t a b : Z) :
  0 < t -> 0 < b ->
  F64.round_half_even (t * a) (t * b) = F64.round_half_even a b.
Proof.
  intros Ht Hb. unfold F64.round_half_even.
  rewrite Z.div_mul_cancel_l by lia.
  rewrite Z.mul_mod_distr_l by lia.
  replace (2 * (t * (a mod b))) with (t * (2 * (a mod b))) by lia.
  rewrite <- (Zmult_compare_compat_l (2 * (a mod b)) b t) by lia. reflexivity.
Qed.


Lemma pow2_lt_digits (a b : Z) : 0 <= a -> 0 <= b -> 2 ^ a < 2 ^ b -> a < b.
Proof. intros Ha Hb H. apply (Z.pow_lt_mono_r_iff 2); lia. Qed.

(** ** Size formatting *)






(** ** Truncation of display strings *)

Lemma substring_prefix_length (n : nat) :
  forall s, (n <= String.length s)%nat ->
    String.length (String.substring 0 n s) = n /\
    String.prefix (String.substring 0 n s) s = true.
Proof.
  induction n as [|n IH]; intros s Hn.
  - destruct s; split; reflexivity.
  - destruct s as [|c s]; simpl in Hn; [lia|].
    destruct (IH s ltac:(lia)) as [Hlen Hpre]. cbn [String.substring].
    split.
    + simpl. now rewrite Hlen.
    + cbn [String.prefix]. destruct (ascii_dec c c); [assumption | congruence].
Qed.

(** C6.  A display string longer than 200 characters is replaced by its
    prefix of 200 characters followed by "... (truncated)"; one of 200
    characters or fewer is left as it is.  Every entry of the tag list holds
    the display string of its value, truncated so. *)
Theorem truncate_display_string :
  (forall s : string,
      200 < len s ->
      truncate s = str_prefix 200 s ++ "... (truncated)" /\
      String.length (str_prefix 200 s) = 200%nat /\
      String.prefix (str_prefix 200 s) s = true) /\
  (forall s : string, len s <= 200 -> truncate s = s) /\
  (forall (B : builtins) (st st' : loop_state) (tag : string) (v : value),
      loop_body B st tag v = Ret st' ->
      exists s,
        display_str B v = Ret s /\
        exif_list st' =
          (exif_list st ++
             [{| entry_tag := tag;
                 entry_value := truncate s;
                 is_sensitive := tag_in tag SENSITIVE_TAGS |}])%list).
Proof.
  split; [|split].
  - intros s Hlen. unfold truncate.
    destruct (200 <? len s) eqn:E; [|apply Z.ltb_ge in E; lia].
    split; [reflexivity|]. unfold str_prefix.
    apply substring_prefix_length. unfold len in Hlen. lia.
  - intros s Hlen. unfold truncate.
    destruct (200 <? len s) eqn:E; [apply Z.ltb_lt in E; lia | reflexivity].
  - intros B st st' tag v H. unfold loop_body in H.
    destruct (display_str B v) as [s|]; [|discriminate].
    cbn [bind] in H. inversion H. subst. exists s. split; reflexivity.
Qed.

(** 250 characters are cut to 200 and the suffix; 200 characters are kept. *)
Lemma truncate_display_string_witness :
  truncate (replicate 250 "a") = replicate 200 "a" ++ "... (truncated)" /\
  truncate (replicate 200 "a") = replicate 200 "a".
Proof.
  split.
  - destruct (proj1 truncate_display_string (replicate 250 "a") eq_refl)
      as [H _].
    rewrite H. reflexivity.
  - apply (proj1 (proj2 truncate_display_string) (replicate 200 "a")).
    vm_compute. discriminate.
Defined.

(** ** The report *)

Lemma has_gps_flag_iff (gps : option gps_report) :
  has_gps_flag gps = true <->
  exists g lat lon,
    gps = Some g /\ latitude g = Some lat /\ longitude g = Some lon.
Proof.
  unfold has_gps_flag. split.
  - destruct gps as [g|]; [|discriminate].
    destruct (latitude g) as [lat|] eqn:E1; [|discriminate].
    destruct (longitude g) as [lon|] eqn:E2; [|discriminate].
    intros _. now exists g, lat, lon.
  - intros [g [lat [lon [-> [-> ->]]]]]. reflexivity.
Qed.

(** What [jsonify] returns is the report it was given. *)
Lemma jsonify_inv (r0 r : report) : jsonify r0 = Ret r -> r = r0.
Proof.
  unfold jsonify. destruct (gps r0) as [g|].
  - destruct (mixed_keys (gps_raw g)); [discriminate|].
    intro H. now inversion H.
  - intro H. now inversion H.
Qed.

Lemma answer_inv (c : res report) (r : report) :
  match c with Ret r' => Answer r' | Exc => Failure500 end = Answer r ->
  c = Ret r.
Proof. destruct c; [intro H; now inversion H | discriminate]. Qed.

(** The GPS block and the flag of every report that [analyze] answers *)
Lemma analyze_has_gps (B : builtins) (img : image) (r : report) :
  analyze B img = Answer r -> has_gps (flags r) = has_gps_flag (gps r).
Proof.
  unfold analyze. intro H. apply answer_inv in H. unfold analyze_image in H.
  destruct (get_basic_info img) as [basic|]; cbn [bind] in H; [|discriminate].
  destruct (get_exif_data B img) as [|kv exif_data].
  - apply jsonify_inv in H. subst. reflexivity.
  - destruct (get_gps_info B (kv :: exif_data)) as [g|]; cbn [bind] in H;
      [|discriminate].
    destruct (loop B (kv :: exif_data) _) as [st|]; cbn [bind] in H;
      [|discriminate].
    apply jsonify_inv in H. subst. reflexivity.
Qed.

(** A coordinate that is missing from the GPS dictionary, or whose
    conversion gives [None], is null in the GPS block. *)
Lemma coordinate_null (B : builtins) (letter : string) (raw ref : value) :
  _convert_to_degrees B raw = Ret None ->
  coordinate B letter raw ref = Ret None.
Proof. unfold coordinate. now intros ->. Qed.

Lemma get_gps_info_null (B : builtins) (exif_data : exif_dict) (items : dict)
    (g : gps_report) :
  assoc_get String.eqb exif_data "GPSInfo" = Some (VDict items) ->
  get_gps_info B exif_data = Ret (Some g) ->
  let raw := gps_data_raw_of B items in
  (match dict_get raw (KStr "GPSLatitude") with
   | Some t => _convert_to_degrees B t = Ret None
   | None => True
   end -> latitude g = None) /\
  (match dict_get raw (KStr "GPSLongitude") with
   | Some t => _convert_to_degrees B t = Ret None
   | None => True
   end -> longitude g = None).
Proof.
  intros Hinfo Hg raw. unfold get_gps_info in Hg. rewrite Hinfo in Hg.
  cbn [py_truthy bind] in Hg.
  destruct (negb (negb (Nat.eqb (List.length items) 0))); [discriminate|].
  fold raw in Hg.
  destruct (match dict_get raw (KStr "GPSLatitude") with
            | Some t => coordinate B "S" t _
            | None => Ret None
            end) as [lat|] eqn:Elat; [|discriminate].
  cbn [bind] in Hg.
  destruct (match dict_get raw (KStr "GPSLongitude") with
            | Some t => coordinate B "W" t _
            | None => Ret None
            end) as [lon|] eqn:Elon; [|discriminate].
  cbn [bind] in Hg.
  destruct (sanitize_values B raw) as [d|]; [|discriminate].
  cbn [bind] in Hg. inversion Hg. subst g. cbn [latitude longitude].
  split.
  - destruct (dict_get raw (KStr "GPSLatitude")) as [t|]; intro H.
    + rewrite (coordinate_null B "S" t _ H) in Elat. congruence.
    + congruence.
  - destruct (dict_get raw (KStr "GPSLongitude")) as [t|]; intro H.
    + rewrite (coordinate_null B "W" t _ H) in Elon. congruence.
    + congruence.
Qed.

Lemma analyze_gps (B : builtins) (img : image) (r : report) :
  analyze B img = Answer r ->
  get_exif_data B img = [] /\ gps r = None \/
  get_gps_info B (get_exif_data B img) = Ret (gps r).
Proof.
  unfold analyze. intro H. apply answer_inv in H. unfold analyze_image in H.
  destruct (get_basic_info img) as [basic|]; cbn [bind] in H; [|discriminate].
  destruct (get_exif_data B img) as [|kv exif_data].
  - apply jsonify_inv in H. subst. left. split; reflexivity.
  - destruct (get_gps_info B (kv :: exif_data)) as [g|]; cbn [bind] in H;
      [|discriminate].
    destruct (loop B (kv :: exif_data) _) as [st|]; cbn [bind] in H;
      [|discriminate].
    apply jsonify_inv in H. subst. right. reflexivity.
Qed.

(** C4.  In every report that [analyze] answers, [has_gps] is true if and
    only if the GPS block is present and both its latitude and its longitude
    are not null.  A GPS block in which a coordinate is null gives
    [has_gps = false]; so does a GPSInfo tag in which the latitude or the
    longitude is missing or fails to decode. *)
Theorem has_gps_iff_both_coordinates (B : builtins) (img : image) (r : report) :
  analyze B img = Answer r ->
  (has_gps (flags r) = true <->
   exists g lat lon,
     gps r = Some g /\ latitude g = Some lat /\ longitude g = Some lon) /\
  (forall g,
      gps r = Some g -> latitude g = None \/ longitude g = None ->
      has_gps (flags r) = false) /\
  (forall items,
      assoc_get String.eqb (get_exif_data B img) "GPSInfo" = Some (VDict items) ->
      let raw := gps_data_raw_of B items in
      match dict_get raw (KStr "GPSLatitude") with
      | Some t => _convert_to_degrees B t = Ret None
      | None => True
      end \/
      match dict_get raw (KStr "GPSLongitude") with
      | Some t => _convert_to_degrees B t = Ret None
      | None => True
      end ->
      has_gps (flags r) = false).
Proof.
  intro H. pose proof (analyze_has_gps B img r H) as Hflag.
  assert (Hnull : forall g, gps r = Some g ->
            latitude g = None \/ longitude g = None ->
            has_gps (flags r) = false).
  { intros g Hg Hnull. rewrite Hflag, Hg. unfold has_gps_flag.
    destruct Hnull as [-> | ->]; [reflexivity|].
    now destruct (latitude g). }
  split; [|split].
  - rewrite Hflag. apply has_gps_flag_iff.
  - exact Hnull.
  - intros items Hinfo raw Hfail.
    destruct (analyze_gps B img r H) as [[Hempty _]|Hgps].
    + rewrite Hempty in Hinfo. discriminate.
    + destruct (gps r) as [g|] eqn:Eg.
      * apply (Hnull g eq_refl).
        destruct (get_gps_info_null B _ items g Hinfo Hgps) as [Hlat Hlon].
        fold raw in Hlat, Hlon. destruct Hfail as [Hf|Hf]; auto.
      * rewrite Hflag. reflexivity.
Qed.

(** An image whose GPSInfo tag holds a good longitude and a latitude of one
    element: the GPS block is there, the latitude is null, [has_gps] is
    false. *)
Lemma has_gps_iff_both_coordinates_witness :
  exists r g,
    analyze sample_builtins
      (sample_image
         (Ret (Some [(34853,
                      VDict [(KInt 2, VTuple [VInt 10]);
                             (KInt 4, VTuple [VInt 20; VInt 15; VInt 0])])])))
    = Answer r /\
    gps r = Some g /\ latitude g = None /\ longitude g <> None /\
    has_gps (flags r) = false.
Proof.
  eexists. eexists.
  split; [vm_compute; reflexivity|].
  split; [reflexivity|]. split; [reflexivity|]. split; [discriminate|].
  match goal with
  | |- has_gps (flags ?r) = false =>
      refine (proj2 (proj2 (has_gps_iff_both_coordinates sample_builtins
                       (sample_image
                          (Ret (Some [(34853,
                                       VDict [(KInt 2, VTuple [VInt 10]);
                                              (KInt 4,
                                               VTuple [VInt 20; VInt 15; VInt 0])])])))
                       r _))
                [(KInt 2, VTuple [VInt 10]);
                 (KInt 4, VTuple [VInt 20; VInt 15; VInt 0])]
                eq_refl (or_introl eq_refl))
  end.
  vm_compute. reflexivity.
Defined.

(** The basic properties of a file of fewer than 2^53 bytes are read without
    an exception. *)
Lemma of_int_returns (n : Z) :
  0 <= n < 2 ^ 53 -> exists size, F64.of_int n = Ret size.
Proof.
  intro Hn. destruct n as [|p|p]; [| |lia].
  - now exists F64.zero.
  - pose proof (digits2_pos_bounds p) as HD.
    assert (HD53 : Zpos (digits2_pos p) <= 53).
    { assert (Zpos (digits2_pos p) - 1 < 53); [|lia].
      apply pow2_lt_digits; lia. }
    destruct (of_Z_exact p HD53) as [m [Hof _]].
    unfold F64.of_int. rewrite Hof. eexists. reflexivity.
Qed.

Lemma get_basic_info_returns (img : image) :
  0 <= img_size img < 2 ^ 53 -> exists basic, get_basic_info img = Ret basic.
Proof.
  intro Hn. unfold get_basic_info, format_size.
  destruct (of_int_returns _ Hn) as [size ->]. cbn [bind].
  eexists. reflexivity.
Qed.

(** C10.  When reading the EXIF data raises, or yields [None] or an empty
    dictionary, [get_exif_data] returns the empty dictionary and the request
    succeeds with the report for an image without metadata: [success] true,
    no tag, no GPS block, the three privacy flags false and the
    no-metadata message.  This holds whenever the basic properties of the
    image were read, as they are for every file of fewer than 2^53 bytes. *)
Theorem analyze_without_exif (B : builtins) (img : image) :
  img_getexif img = Exc \/
  img_getexif img = Ret None \/
  img_getexif img = Ret (Some []) ->
  get_exif_data B img = [] /\
  (forall basic,
      get_basic_info img = Ret basic ->
      analyze B img = Answer (empty_report basic) /\
      success (empty_report basic) = true /\
      exif (empty_report basic) = [] /\
      gps (empty_report basic) = None /\
      flags (empty_report basic) =
        {| has_gps := false; has_datetime := false; has_camera_model := false |} /\
      message (empty_report basic) = "No EXIF metadata found in this image.") /\
  (0 <= img_size img < 2 ^ 53 ->
   exists basic, analyze B img = Answer (empty_report basic)).
Proof.
  intros Hexif.
  assert (Hdata : get_exif_data B img = []).
  { unfold get_exif_data. destruct Hexif as [-> | [-> | ->]]; reflexivity. }
  assert (Hanswer : forall basic, get_basic_info img = Ret basic ->
                      analyze B img = Answer (empty_report basic)).
  { intros basic Hbasic. unfold analyze, analyze_image. rewrite Hbasic.
    cbn [bind]. rewrite Hdata. reflexivity. }
  split; [exact Hdata|]. split.
  - intros basic Hbasic. split; [now apply Hanswer | repeat split].
  - intro Hsize. destruct (get_basic_info_returns img Hsize) as [basic Hbasic].
    exists basic. now apply Hanswer.
Qed.

(** An image whose [_getexif] raises. *)
Lemma analyze_without_exif_witness :
  exists basic,
    get_basic_info (sample_image Exc) = Ret basic /\
    file_size basic = "1.50 KB" /\
    analyze sample_builtins (sample_image Exc) = Answer (empty_report basic).
Proof.
  eexists. split; [vm_compute; reflexivity|]. split; [reflexivity|].
  refine (proj1 (proj1 (proj2 (analyze_without_exif sample_builtins
                                 (sample_image Exc) (or_introl eq_refl)))
                   _ _)).
  vm_compute. reflexivity.
Defined.

(** ** A whole report *)

(** The scenario of a photograph with a date, a camera model and a position
    at 10 degrees 30 minutes north, 20 degrees 15 minutes west: the three
    privacy flags are set, the latitude is 10.5 and the longitude -20.25
    (-5699868278390784 / 2^48), and the tags come in the order of the EXIF
    mapping. *)
Theorem analyze_full_scenario :
  exists r g,
    analyze sample_builtins
      (sample_image
         (Ret (Some [(36867, VStr "2020:01:01 12:00:00");
                     (272, VStr "Camera X");
                     (34853,
                      VDict [(KInt 2, VTuple [VInt 10; VInt 30; VInt 0]);
                             (KInt 1, VStr "N");
                             (KInt 4, VTuple [VInt 20; VInt 15; VInt 0]);
                             (KInt 3, VStr "W")])])))
    = Answer r /\
    flags r = {| has_gps := true;
                 has_datetime := true;
                 has_camera_model := true |} /\
    gps r = Some g /\
    latitude g = Some f10_5 /\
    longitude g = Some (S754_finite true 5699868278390784 (-48)) /\
    map entry_tag (exif r) = ["DateTimeOriginal"; "Model"; "GPSInfo"] /\
    map is_sensitive (exif r) = [true; true; true] /\
    message r = "Metadata analyzed successfully.".
Proof.
  eexists. eexists. split; [vm_compute; reflexivity|].
  repeat split.
Qed.

(** * Further properties of the code *)

(** ** Allowed file names *)

Lemma rsplit_dot_none (s : string) :
  has_dot s = false -> rsplit_dot s = None.
Proof.
  induction s as [|c s IH]; simpl; [reflexivity|].
  intro H. apply orb_false_iff in H. destruct H as [Hc Hs].
  now rewrite IH, Hc.
Qed.

Lemma rsplit_dot_last (stem ext : string) :
  has_dot ext = false ->
  rsplit_dot (stem ++ String "." ext) = Some (stem, ext).
Proof.
  intro Hext. induction stem as [|c stem IH]; simpl.
  - now rewrite rsplit_dot_none.
  - now rewrite IH.
Qed.

Lemma rsplit_dot_some (s before after : string) :
  rsplit_dot s = Some (before, after) ->
  s = before ++ String "." after /\ has_dot after = false.
Proof.
  revert before. induction s as [|c s IH]; simpl; intros before H.
  - discriminate.
  - destruct (rsplit_dot s) as [[b a]|] eqn:E.
    + inversion H. subst. destruct (IH b eq_refl) as [-> Ha].
      split; reflexivity || assumption.
    + destruct (Ascii.eqb c ".") eqn:Ec; [|discriminate].
      inversion H. subst. apply Ascii.eqb_eq in Ec. subst c.
      split; [reflexivity|].
      clear IH H. induction after as [|x r IHr]; [reflexivity|].
      simpl in E. simpl.
      destruct (rsplit_dot r) as [[b a]|]; [discriminate|].
      destruct (Ascii.eqb x "."); [discriminate|].
      now apply IHr.
Qed.

Lemma has_dot_app_dot (stem ext : string) :
  has_dot (stem ++ String "." ext) = true.
Proof.
  induction stem as [|c stem IH]; simpl.
  - reflexivity.
  - rewrite IH. apply orb_true_r.
Qed.

(** Only what follows the last dot counts, whatever its case: a name is
    allowed exactly when it is [stem.ext] with no dot in [ext] and [ext],
    lowercased, one of jpg, jpeg, png, tiff and webp.  A name without a dot
    is refused. *)
Theorem allowed_file_last_extension :
  (forall stem ext,
      has_dot ext = false ->
      allowed_file (stem ++ "." ++ ext)
      = existsb (String.eqb (lower ext)) ALLOWED_EXTENSIONS) /\
  (forall s, has_dot s = false -> allowed_file s = false) /\
  (forall s,
      allowed_file s = true ->
      exists stem ext,
        s = stem ++ "." ++ ext /\ has_dot ext = false /\
        In (lower ext) ALLOWED_EXTENSIONS).
Proof.
  split; [|split].
  - intros stem ext Hext. unfold allowed_file.
    change (stem ++ "." ++ ext) with (stem ++ String "." ext).
    now rewrite has_dot_app_dot, rsplit_dot_last.
  - intros s Hs. unfold allowed_file. now rewrite Hs.
  - intros s H. unfold allowed_file in H. apply andb_true_iff in H.
    destruct H as [_ H].
    destruct (rsplit_dot s) as [[stem ext]|] eqn:E; [|discriminate].
    apply rsplit_dot_some in E. destruct E as [-> Hext].
    exists stem, ext. split; [reflexivity|]. split; [assumption|].
    apply existsb_exists in H. destruct H as [x [Hin Heq]].
    apply String.eqb_eq in Heq. now subst.
Qed.

(** An upper-case extension after a second dot is allowed; an image
    extension that is not the last one is not. *)
Lemma allowed_file_last_extension_witness :
  allowed_file "holiday.tar.JPG" = true /\
  allowed_file "photo.jpg.exe" = false /\
  allowed_file "README" = false.
Proof.
  split; [|split].
  - refine (eq_trans
              (proj1 allowed_file_last_extension "holiday.tar" "JPG" eq_refl) _).
    reflexivity.
  - refine (eq_trans
              (proj1 allowed_file_last_extension "photo.jpg" "exe" eq_refl) _).
    reflexivity.
  - apply (proj1 (proj2 allowed_file_last_extension)). reflexivity.
Defined.

(** ** Dictionaries filled item by item *)

Section AssocFacts.

Context {K V : Type} (eqb : K -> K -> bool).

Hypothesis eqb_eq : forall a b : K, eqb a b = true <-> a = b.

Lemma eqb_neq (a b : K) : a <> b -> eqb a b = false.
Proof.
  intro H. destruct (eqb a b) eqn:E; [|reflexivity].
  apply eqb_eq in E. contradiction.
Qed.

Lemma assoc_get_set_same (d : list (K * V)) (k : K) (v : V) :
  assoc_get eqb (assoc_set eqb d k v) k = Some v.
Proof.
  induction d as [|[k' v'] d IH]; simpl.
  - now rewrite (proj2 (eqb_eq k k) eq_refl).
  - destruct (eqb k' k) eqn:E; simpl; now rewrite E.
Qed.

Lemma assoc_get_set_other (d : list (K * V)) (k k' : K) (v : V) :
  k <> k' -> assoc_get eqb (assoc_set eqb d k v) k' = assoc_get eqb d k'.
Proof.
  intro Hne. induction d as [|[k0 v0] d IH]; simpl.
  - now rewrite eqb_neq.
  - destruct (eqb k0 k) eqn:E; simpl.
    + apply eqb_eq in E. subst k0. now rewrite eqb_neq.
    + now rewrite IH.
Qed.

Lemma assoc_set_In_keys (d : list (K * V)) (k x : K) (v : V) :
  In x (map fst (assoc_set eqb d k v)) <-> x = k \/ In x (map fst d).
Proof.
  induction d as [|[k' v'] d IH]; simpl.
  - intuition.
  - destruct (eqb k' k) eqn:E; simpl.
    + apply eqb_eq in E. subst k'. intuition.
    + rewrite IH. intuition.
Qed.

Lemma assoc_set_NoDup (d : list (K * V)) (k : K) (v : V) :
  NoDup (map fst d) -> NoDup (map fst (assoc_set eqb d k v)).
Proof.
  induction d as [|[k' v'] d IH]; simpl; intro H.
  - repeat constructor. intros [].
  - inversion H as [|? ? Hk Hd]; subst.
    destruct (eqb k' k) eqn:E; simpl.
    + now constructor.
    + constructor; [|now apply IH].
      rewrite assoc_set_In_keys. intros [->|Hin]; [|contradiction].
      rewrite (proj2 (eqb_eq k k) eq_refl) in E. discriminate.
Qed.

Lemma assoc_set_fresh (d : list (K * V)) (k : K) (v : V) :
  ~ In k (map fst d) -> assoc_set eqb d k v = (d ++ [(k, v)])%list.
Proof.
  induction d as [|[k' v'] d IH]; simpl; intro Hk.
  - reflexivity.
  - rewrite eqb_neq by (intro; subst; apply Hk; now left).
    rewrite IH; [reflexivity|]. intro. apply Hk. now right.
Qed.

Lemma assoc_get_app (d1 d2 : list (K * V)) (k : K) :
  assoc_get eqb (d1 ++ d2) k =
  match assoc_get eqb d1 k with
  | Some v => Some v
  | None => assoc_get eqb d2 k
  end.
Proof.
  induction d1 as [|[k' v'] d1 IH]; simpl; [reflexivity|].
  now destruct (eqb k' k).
Qed.

Section Filling.

Context {X : Type} (kf : X -> K) (vf : X -> V).

(** The keys stay distinct. *)
Lemma fill_NoDup (xs : list X) :
  forall d, NoDup (map fst d) -> NoDup (map fst (fill eqb kf vf xs d)).
Proof.
  induction xs as [|x xs IH]; intros d Hd; simpl; [assumption|].
  apply IH. now apply assoc_set_NoDup.
Qed.

(** Looking a key up finds the last item written under it. *)
Lemma fill_get (xs : list X) :
  forall d k,
    assoc_get eqb (fill eqb kf vf xs d) k =
    match assoc_get eqb (rev (map (item kf vf) xs)) k with
    | Some v => Some v
    | None => assoc_get eqb d k
    end.
Proof.
  induction xs as [|x xs IH]; intros d k; simpl; [reflexivity|].
  rewrite IH, assoc_get_app. simpl.
  destruct (assoc_get eqb (rev (map (item kf vf) xs)) k) as [v|]; [reflexivity|].
  destruct (eqb (kf x) k) eqn:E.
  - apply eqb_eq in E. subst k. apply assoc_get_set_same.
  - apply assoc_get_set_other. intro H. subst k.
    rewrite (proj2 (eqb_eq _ _) eq_refl) in E. discriminate.
Qed.

(** Items with distinct keys are kept as they come. *)
Lemma fill_distinct (xs : list X) :
  forall d,
    NoDup (map fst d ++ map kf xs) ->
    fill eqb kf vf xs d = (d ++ map (item kf vf) xs)%list.
Proof.
  induction xs as [|x xs IH]; intros d Hnd; simpl.
  - now rewrite app_nil_r.
  - assert (Hfresh : ~ In (kf x) (map fst d)).
    { apply NoDup_remove_2 in Hnd. intro Hin. apply Hnd.
      apply in_or_app. now left. }
    rewrite assoc_set_fresh by assumption.
    rewrite IH.
    + now rewrite <- app_assoc.
    + rewrite map_app. simpl. now rewrite <- app_assoc.
Qed.

Lemma fill_keys (xs : list X) :
  forall d k,
    In k (map fst (fill eqb kf vf xs d)) <-> In k (map fst d) \/ In k (map kf xs).
Proof.
  induction xs as [|x xs IH]; intros d k; simpl; [intuition|].
  rewrite IH, assoc_set_In_keys. intuition.
Qed.

End Filling.

End AssocFacts.

Lemma map_item_pairs {K V : Type} (l : list (K * V)) :
  map (item fst snd) l = l.
Proof.
  induction l as [|[k v] l IH]; simpl; [reflexivity|].
  now rewrite IH.
Qed.

(** A dictionary comprehension writes the converted items one by one. *)
Lemma comprehension_items (fk : key -> key) (fv : value -> res value)
    (items : dict) :
  forall acc d,
    comprehension fk fv items acc = Ret d ->
    exists items',
      Forall2 (fun kv kv' => fst kv' = fk (fst kv) /\ fv (snd kv) = Ret (snd kv'))
        items items' /\
      d = fill key_eqb fst snd items' acc.
Proof.
  induction items as [|[k v] items IH]; intros acc d H.
  - simpl in H. inversion H. exists []. split; [constructor | reflexivity].
  - cbn [comprehension] in H. destruct (fv v) as [v'|] eqn:Ev; [|discriminate].
    cbn [bind] in H. destruct (IH _ _ H) as [items' [HF Hd]].
    exists ((fk k, v') :: items'). split.
    + constructor; [split; [reflexivity | exact Ev] | exact HF].
    + exact Hd.
Qed.

Lemma Forall2_keys (fk : key -> key) (P : value -> value -> Prop)
    (items items' : dict) :
  Forall2 (fun kv kv' => fst kv' = fk (fst kv) /\ P (snd kv) (snd kv'))
    items items' ->
  map fst items' = map (fun kv => fk (fst kv)) items.
Proof.
  induction 1 as [|kv kv' l l' [Hk _] _ IH]; simpl; [reflexivity|].
  now rewrite Hk, IH.
Qed.

(** ** The EXIF dictionary *)

Lemma get_exif_data_fill (B : builtins) (img : image) :
  get_exif_data B img
  = fill String.eqb (fun kv => exif_tag_name B (fst kv)) snd (exif_items img) [].
Proof.
  unfold get_exif_data, exif_items.
  destruct (img_getexif img) as [[[|kv items]|]|]; reflexivity.
Qed.

(** The tag names of [exif_data] are distinct, they are the resolved names
    of the tags read, and under each name stands the value of the last tag
    read that resolves to it. *)
Theorem get_exif_data_last_wins (B : builtins) (img : image) :
  NoDup (map fst (get_exif_data B img)) /\
  (forall name,
      In name (map fst (get_exif_data B img)) <->
      In name (map (fun kv => exif_tag_name B (fst kv)) (exif_items img))) /\
  (forall name,
      assoc_get String.eqb (get_exif_data B img) name
      = assoc_get String.eqb (rev (map (named_item B) (exif_items img))) name).
Proof.
  rewrite get_exif_data_fill. split; [|split].
  - apply (fill_NoDup String.eqb String.eqb_eq). constructor.
  - intro name. rewrite (fill_keys String.eqb String.eqb_eq). simpl. tauto.
  - intro name. rewrite (fill_get String.eqb String.eqb_eq).
    change (item (fun kv : Z * value => exif_tag_name B (fst kv)) snd)
      with (named_item B).
    now destruct (assoc_get String.eqb (rev (map (named_item B) (exif_items img))) name).
Qed.

(** When the tags read resolve to distinct names, [exif_data] holds them in
    the order read, each under its name. *)
Theorem get_exif_data_in_order (B : builtins) (img : image) :
  NoDup (map (fun kv => exif_tag_name B (fst kv)) (exif_items img)) ->
  get_exif_data B img = map (named_item B) (exif_items img).
Proof.
  intro Hnd. rewrite get_exif_data_fill.
  now rewrite (fill_distinct String.eqb String.eqb_eq).
Qed.

(** Model (272), an unknown tag (40000) and Make (271): three names, in
    this order. *)
Lemma get_exif_data_in_order_witness :
  get_exif_data sample_builtins
    (sample_image (Ret (Some [(272, VStr "X100"); (40000, VInt 7);
                              (271, VStr "ACME")])))
  = [("Model", VStr "X100"); ("40000", VInt 7); ("Make", VStr "ACME")].
Proof.
  refine (eq_trans
            (get_exif_data_in_order sample_builtins
               (sample_image (Ret (Some [(272, VStr "X100"); (40000, VInt 7);
                                         (271, VStr "ACME")]))) _) _).
  - vm_compute. repeat constructor; simpl; intuition discriminate.
  - reflexivity.
Defined.

(** ** The GPS block *)

Lemma gps_data_raw_of_fill (B : builtins) (items : dict) :
  gps_data_raw_of B items
  = fill key_eqb (fun kv => gps_sub_tag B (fst kv)) snd items [].
Proof. reflexivity. Qed.

Lemma get_gps_info_raw (B : builtins) (exif_data : exif_dict) (items : dict)
    (g : gps_report) :
  assoc_get String.eqb exif_data "GPSInfo" = Some (VDict items) ->
  get_gps_info B exif_data = Ret (Some g) ->
  sanitize_values B (gps_data_raw_of B items) = Ret (gps_raw g).
Proof.
  intros Hinfo Hg. unfold get_gps_info in Hg. rewrite Hinfo in Hg.
  cbn [py_truthy bind] in Hg.
  destruct (negb (negb (Nat.eqb (List.length items) 0))); [discriminate|].
  destruct (match dict_get (gps_data_raw_of B items) (KStr "GPSLatitude") with
            | Some t => coordinate B "S" t _
            | None => Ret None
            end) as [lat|]; [|discriminate].
  cbn [bind] in Hg.
  destruct (match dict_get (gps_data_raw_of B items) (KStr "GPSLongitude") with
            | Some t => coordinate B "W" t _
            | None => Ret None
            end) as [lon|]; [|discriminate].
  cbn [bind] in Hg.
  destruct (sanitize_values B (gps_data_raw_of B items)) as [d|];
    [|discriminate].
  cbn [bind] in Hg. inversion Hg. reflexivity.
Qed.

(** Sanitizing the values of a dictionary keeps its keys. *)
Lemma sanitize_values_keys (B : builtins) (raw d : dict) :
  NoDup (map fst raw) ->
  sanitize_values B raw = Ret d ->
  map fst d = map fst raw.
Proof.
  intros Hnd Hs. unfold sanitize_values in Hs.
  destruct (comprehension_items _ _ _ _ _ Hs) as [items' [HF Hd]].
  pose proof (Forall2_keys (fun k => k)
                (fun v v' => sanitize_for_json B v = Ret v') raw items' HF)
    as Hkeys.
  assert (Hkeys' : map fst items' = map fst raw).
  { rewrite Hkeys. apply map_ext. reflexivity. }
  rewrite (fill_distinct key_eqb key_eqb_eq) in Hd
    by (simpl; rewrite Hkeys'; exact Hnd).
  simpl in Hd. rewrite map_item_pairs in Hd. now rewrite Hd.
Qed.

Lemma get_gps_info_raw_keys (B : builtins) (exif_data : exif_dict)
    (items : dict) (g : gps_report) :
  assoc_get String.eqb exif_data "GPSInfo" = Some (VDict items) ->
  get_gps_info B exif_data = Ret (Some g) ->
  map fst (gps_raw g) = map fst (gps_data_raw_of B items).
Proof.
  intros Hinfo Hg. apply (sanitize_values_keys B).
  - rewrite gps_data_raw_of_fill.
    apply (fill_NoDup key_eqb key_eqb_eq). constructor.
  - exact (get_gps_info_raw B exif_data items g Hinfo Hg).
Qed.

(** The [raw] field of the GPS block has the sub-tags of the GPS dictionary,
    each once and in the order first met, every value being the sanitized
    value of the last item read under that sub-tag, whether or not the
    coordinates were decoded. *)
Theorem get_gps_info_raw_sanitized (B : builtins) (exif_data : exif_dict)
    (items : dict) (g : gps_report) :
  assoc_get String.eqb exif_data "GPSInfo" = Some (VDict items) ->
  get_gps_info B exif_data = Ret (Some g) ->
  let raw := gps_data_raw_of B items in
  NoDup (map fst raw) /\
  (forall k, dict_get raw k = dict_get (rev (map (gps_item B) items)) k) /\
  map fst (gps_raw g) = map fst raw /\
  Forall2 (fun kv kv' => sanitize_for_json B (snd kv) = Ret (snd kv'))
    raw (gps_raw g).
Proof.
  intros Hinfo Hg raw.
  assert (Hnd : NoDup (map fst raw)).
  { unfold raw. rewrite gps_data_raw_of_fill.
    apply (fill_NoDup key_eqb key_eqb_eq). constructor. }
  split; [exact Hnd|]. split.
  { intro k. unfold raw, dict_get. rewrite gps_data_raw_of_fill.
    rewrite (fill_get key_eqb key_eqb_eq).
    change (item (fun kv : key * value => gps_sub_tag B (fst kv)) snd)
      with (gps_item B).
    now destruct (assoc_get key_eqb (rev (map (gps_item B) items)) k). }
  pose proof (get_gps_info_raw B exif_data items g Hinfo Hg) as Hs.
  fold raw in Hs. unfold sanitize_values in Hs.
  destruct (comprehension_items _ _ _ _ _ Hs) as [items' [HF Hd]].
  pose proof (Forall2_keys (fun k => k)
                (fun v v' => sanitize_for_json B v = Ret v') raw items' HF)
    as Hkeys.
  assert (Hkeys' : map fst items' = map fst raw).
  { rewrite Hkeys. apply map_ext. reflexivity. }
  rewrite (fill_distinct key_eqb key_eqb_eq) in Hd
    by (simpl; rewrite Hkeys'; exact Hnd).
  simpl in Hd. rewrite map_item_pairs in Hd. rewrite Hd. split.
  - exact Hkeys'.
  - clear -HF. induction HF as [|kv kv' l l' [_ Hv] _ IH]; constructor; auto.
Qed.

(** A GPS dictionary in which the latitude comes twice, under its ID and
    under its name: one entry, at the place of the first, with the value of
    the second, sanitized. *)
Lemma get_gps_info_raw_sanitized_witness :
  exists g,
    get_gps_info sample_builtins
      [("GPSInfo",
        VDict [(KInt 2, VTuple [VInt 1; VInt 2; VInt 3]);
               (KInt 1, VBytes [Byte.x4e]);
               (KStr "GPSLatitude", VTuple [VInt 10; VInt 30; VInt 0])])]
    = Ret (Some g) /\
    map fst (gps_raw g) = [KStr "GPSLatitude"; KStr "GPSLatitudeRef"] /\
    dict_get (gps_raw g) (KStr "GPSLatitude")
    = Some (VList [VInt 10; VInt 30; VInt 0]).
Proof.
  eexists. split; [vm_compute; reflexivity|].
  match goal with
  | |- map fst (gps_raw ?g) = _ /\ _ =>
      destruct (get_gps_info_raw_sanitized sample_builtins
                  [("GPSInfo",
                    VDict [(KInt 2, VTuple [VInt 1; VInt 2; VInt 3]);
                           (KInt 1, VBytes [Byte.x4e]);
                           (KStr "GPSLatitude",
                            VTuple [VInt 10; VInt 30; VInt 0])])]
                  _ g eq_refl ltac:(vm_compute; reflexivity))
        as [_ [_ [Hkeys _]]]
  end.
  split; [exact Hkeys | reflexivity].
Defined.

(** ** The sanitizer on containers *)

Lemma each_Forall2 (fv : value -> res value) (xs ys : list value) :
  each fv xs = Ret ys -> Forall2 (fun x y => fv x = Ret y) xs ys.
Proof.
  revert ys. induction xs as [|x xs IH]; intros ys H; simpl in H.
  - inversion H. constructor.
  - destruct (fv x) as [y|] eqn:Ex; [|discriminate]. cbn [bind] in H.
    destruct (each fv xs) as [ys'|]; [|discriminate]. cbn [bind] in H.
    inversion H. constructor; auto.
Qed.

Lemma NoDup_map_KStr (l : list string) : NoDup l -> NoDup (map KStr l).
Proof.
  induction 1 as [|s l Hs _ IH]; simpl; constructor; [|assumption].
  intro Hin. apply in_map_iff in Hin. destruct Hin as [t [Ht Hin]].
  inversion Ht. now subst.
Qed.

(** A list and a tuple are both sanitized to a list, of the same length,
    whose elements are the sanitized elements in their order. *)
Theorem sanitize_for_json_sequence (B : builtins) (v : value)
    (xs : list value) :
  seq_items v = Some xs ->
  exists ys,
    sanitize_for_json B v = Ret (VList ys) /\
    List.length ys = List.length xs /\
    Forall2 (fun x y => sanitize_for_json B x = Ret y) xs ys.
Proof.
  intro Hv.
  assert (Hret : exists ys, each (sanitize_for_json B) xs = Ret ys).
  { destruct (each_returns (sanitize_for_json B) xs) as [ys [H _]].
    - apply Forall_forall. intros x _. apply sanitize_returns.
    - now exists ys. }
  destruct Hret as [ys Hys]. exists ys.
  pose proof (each_Forall2 _ _ _ Hys) as HF.
  split; [|split].
  - destruct v; try discriminate; simpl in Hv; inversion Hv; subst;
      cbn [sanitize_for_json]; now rewrite Hys.
  - symmetry. eapply Forall2_length. exact HF.
  - exact HF.
Qed.

(** A tuple of a rational pair, bytes and an integer. *)
Lemma sanitize_for_json_sequence_witness :
  sanitize_for_json sample_builtins
    (VTuple [VTuple [VInt 1; VInt 2]; VBytes [Byte.x4e]; VInt 3])
  = Ret (VList [VList [VInt 1; VInt 2]; VStr "N"; VInt 3]).
Proof.
  destruct (sanitize_for_json_sequence sample_builtins
              (VTuple [VTuple [VInt 1; VInt 2]; VBytes [Byte.x4e]; VInt 3])
              _ eq_refl) as [ys [H _]].
  rewrite H. vm_compute in H. inversion H. reflexivity.
Defined.

(** A dictionary is sanitized to a dictionary whose keys are the strings of
    its keys, each once and in the order first met; under each string stands
    the sanitized value of the last item whose key has that string, so that
    the keys 1 and "1" merge.  When the strings of the keys are distinct the
    items keep their order. *)
Theorem sanitize_for_json_dict (B : builtins) (items : dict) :
  exists d items',
    sanitize_for_json B (VDict items) = Ret (VDict d) /\
    Forall2 (fun kv kv' =>
               fst kv' = KStr (str_of_key (fst kv)) /\
               sanitize_for_json B (snd kv) = Ret (snd kv'))
      items items' /\
    NoDup (map fst d) /\
    (forall k, dict_get d k = dict_get (rev items') k) /\
    (NoDup (map (fun kv => str_of_key (fst kv)) items) -> d = items').
Proof.
  destruct (sanitize_returns B (VDict items)) as [sv [Hret _]].
  cbn [sanitize_for_json] in Hret.
  destruct (comprehension _ _ items []) as [d|] eqn:Ec; [|discriminate].
  destruct (comprehension_items _ _ _ _ _ Ec) as [items' [HF Hd]].
  exists d, items'. split; [|split; [exact HF|]].
  { cbn [sanitize_for_json]. now rewrite Ec. }
  rewrite Hd. split; [|split].
  - apply (fill_NoDup key_eqb key_eqb_eq). constructor.
  - intro k. unfold dict_get. rewrite (fill_get key_eqb key_eqb_eq).
    rewrite map_item_pairs.
    now destruct (assoc_get key_eqb (rev items') k).
  - intro Hnd.
    rewrite (fill_distinct key_eqb key_eqb_eq).
    + simpl. apply map_item_pairs.
    + simpl.
      rewrite (Forall2_keys (fun k => KStr (str_of_key k))
                 (fun v v' => sanitize_for_json B v = Ret v') items items' HF).
      rewrite <- (map_map (fun kv : key * value => str_of_key (fst kv)) KStr).
      now apply NoDup_map_KStr.
Qed.

(** The keys 1 and "1" merge at the place of the first, with the value of
    the second. *)
Lemma sanitize_for_json_dict_witness :
  sanitize_for_json sample_builtins
    (VDict [(KInt 1, VStr "a"); (KStr "x", VInt 0); (KStr "1", VStr "b")])
  = Ret (VDict [(KStr "1", VStr "b"); (KStr "x", VInt 0)]).
Proof.
  destruct (sanitize_for_json_dict sample_builtins
              [(KInt 1, VStr "a"); (KStr "x", VInt 0); (KStr "1", VStr "b")])
    as [d [items' [H _]]].
  rewrite H. vm_compute in H. inversion H. reflexivity.
Defined.

(** ** Display strings *)

Lemma py_str_simple (B : builtins) (v : value) :
  is_simple v = true -> exists s, py_str B v = Ret s.
Proof. destruct v; try discriminate; intros _; simpl; eauto. Qed.

Lemma stringify_returns (B : builtins) (v : value) :
  exists s,
    try_except (s <- py_str B v ;; Ret (VStr s)) (Ret (VStr "<unserializable>"))
    = Ret (VStr s).
Proof. destruct (py_str B v) as [s|]; simpl; eauto. Qed.

Lemma display_tail_returns (B : builtins) (dv2 : value) :
  exists s,
    (dv3 <- (if is_simple dv2 then Ret dv2
             else try_except (s <- py_str B dv2 ;; Ret (VStr s))
                    (Ret (VStr "<unserializable>"))) ;;
     py_str B dv3) = Ret s.
Proof.
  destruct (is_simple dv2) eqn:E.
  - cbn [bind]. now apply py_str_simple.
  - destruct (stringify_returns B dv2) as [s ->]. cbn [bind py_str]. eauto.
Qed.

(** The display string of a tag value is always obtained: no value makes
    [display_str] raise.  Text is shown as it is, bytes as their decoding,
    an integer in decimal, and an object whose [str] raises as the text
    "<unserializable>". *)
Theorem display_str_returns (B : builtins) :
  (forall v, exists s, display_str B v = Ret s) /\
  (forall s, display_str B (VStr s) = Ret s) /\
  (forall bs, display_str B (VBytes bs) = Ret (decode_bytes B bs)) /\
  (forall n, display_str B (VInt n) = Ret (str_of_Z n)) /\
  (forall fl tr a1 a2 a3 a4,
      display_str B (VObj fl tr Exc a1 a2 a3 a4) = Ret "<unserializable>").
Proof.
  split; [|repeat split; reflexivity].
  intro v. unfold display_str.
  destruct (decode_if_bytes B v) as [| | | | | |items|xs|xs|] eqn:E;
    try apply display_tail_returns.
  - destruct (sanitize_returns B (VList xs)) as [sv [-> _]].
    cbn [try_except bind]. apply display_tail_returns.
  - destruct (sanitize_returns B (VTuple xs)) as [sv [-> _]].
    cbn [try_except bind]. apply display_tail_returns.
Qed.

(** ** The tag list and the privacy flags *)

Lemma length_append (s t : string) :
  String.length (s ++ t) = (String.length s + String.length t)%nat.
Proof. induction s as [|c s IH]; simpl; [reflexivity | now rewrite IH]. Qed.

Lemma truncate_length (s : string) : len (truncate s) <= 215.
Proof.
  unfold truncate. destruct (200 <? len s) eqn:E.
  - apply Z.ltb_lt in E. unfold len in *. rewrite length_append.
    unfold str_prefix.
    destruct (substring_prefix_length 200 s ltac:(lia)) as [-> _].
    simpl. lia.
  - apply Z.ltb_ge in E. lia.
Qed.

Lemma loop_spec (B : builtins) (items : exif_dict) :
  forall st,
  exists st' es,
    loop B items st = Ret st' /\
    exif_list st' = (exif_list st ++ es)%list /\
    Forall2 (entry_of B) items es /\
    seen_datetime st' =
      (seen_datetime st ||
       existsb (fun kv => tag_in (fst kv)
                  ["DateTime"; "DateTimeOriginal"; "DateTimeDigitized"]) items) /\
    seen_camera_model st' =
      (seen_camera_model st ||
       existsb (fun kv => tag_in (fst kv) ["Model"; "Make"]) items).
Proof.
  induction items as [|[tag v] items IH]; intro st.
  - exists st, []. simpl. rewrite app_nil_r, !orb_false_r.
    repeat split. constructor.
  - cbn [loop]. unfold loop_body.
    destruct (proj1 (display_str_returns B) v) as [s Hs]. rewrite Hs.
    cbn [bind].
    match goal with |- context [loop B items ?st0] =>
      destruct (IH st0) as [st' [es [Hloop [Hlist [HF [Hdt Hcm]]]]]]
    end.
    cbn [exif_list seen_datetime seen_camera_model] in Hlist, Hdt, Hcm.
    eexists st', (_ :: es). split; [exact Hloop|]. split.
    { rewrite Hlist, <- app_assoc. reflexivity. }
    split.
    { constructor; [|exact HF]. split; [reflexivity|].
      split; [reflexivity|]. exists s. split; [exact Hs | reflexivity]. }
    cbn [existsb fst]. split.
    + rewrite Hdt.
      destruct (tag_in tag ["DateTime"; "DateTimeOriginal"; "DateTimeDigitized"]);
        [now rewrite orb_true_r | now rewrite orb_false_l].
    + rewrite Hcm.
      destruct (tag_in tag ["Model"; "Make"]);
        [now rewrite orb_true_r | now rewrite orb_false_l].
Qed.

(** What [analyze] answers, in terms of [exif_data] *)
Lemma analyze_report (B : builtins) (img : image) (r : report) :
  analyze B img = Answer r ->
  Forall2 (entry_of B) (get_exif_data B img) (exif r) /\
  has_datetime (flags r) =
    existsb (fun kv => tag_in (fst kv)
               ["DateTime"; "DateTimeOriginal"; "DateTimeDigitized"])
      (get_exif_data B img) /\
  has_camera_model (flags r) =
    existsb (fun kv => tag_in (fst kv) ["Model"; "Make"]) (get_exif_data B img) /\
  success r = true.
Proof.
  unfold analyze. intro H. apply answer_inv in H. unfold analyze_image in H.
  destruct (get_basic_info img) as [basic|]; cbn [bind] in H; [|discriminate].
  destruct (get_exif_data B img) as [|kv exif_data] eqn:E.
  - apply jsonify_inv in H. subst. simpl. repeat split. constructor.
  - destruct (get_gps_info B (kv :: exif_data)) as [g|]; cbn [bind] in H;
      [|discriminate].
    match type of H with context [loop B ?items ?st0] =>
      destruct (loop_spec B items st0) as [st' [es [Hloop [Hlist [HF [Hdt Hcm]]]]]]
    end.
    rewrite Hloop in H. cbn [bind] in H. apply jsonify_inv in H. subst.
    cbn [exif flags has_datetime has_camera_model success].
    simpl in Hlist. rewrite Hlist. repeat split; assumption.
Qed.

(** In every report that [analyze] answers, the tag list has one entry for
    each tag of [exif_data], in the same order: the entry holds the tag name,
    whether the name is one of the sensitive ones, and the display string of
    the value, truncated. *)
Theorem analyze_tag_list (B : builtins) (img : image) (r : report) :
  analyze B img = Answer r ->
  Forall2 (entry_of B) (get_exif_data B img) (exif r) /\
  map entry_tag (exif r) = map fst (get_exif_data B img) /\
  List.length (exif r) = List.length (get_exif_data B img).
Proof.
  intro H. destruct (analyze_report B img r H) as [HF _].
  split; [exact HF|]. split.
  - clear H. induction HF as [|kv e l l' [Ht _] _ IH]; simpl; [reflexivity|].
    now rewrite Ht, IH.
  - symmetry. eapply Forall2_length. exact HF.
Qed.

(** An unknown tag holding 300 bytes "a" and the camera model. *)
Lemma analyze_tag_list_witness :
  exists r,
    analyze sample_builtins
      (sample_image (Ret (Some [(40000, VBytes (repeat Byte.x61 300));
                                (272, VStr "X100")])))
    = Answer r /\
    map entry_tag (exif r) = ["40000"; "Model"] /\
    map is_sensitive (exif r) = [false; true] /\
    map entry_value (exif r)
    = [replicate 200 "a" ++ "... (truncated)"; "X100"].
Proof.
  eexists. split; [vm_compute; reflexivity|].
  match goal with
  | |- map entry_tag (exif ?r) = _ /\ _ =>
      destruct (analyze_tag_list sample_builtins
                  (sample_image (Ret (Some [(40000, VBytes (repeat Byte.x61 300));
                                            (272, VStr "X100")])))
                  r ltac:(vm_compute; reflexivity)) as [_ [Htags _]]
  end.
  split; [exact Htags|]. split; reflexivity.
Defined.

(** No display value in a report is longer than 215 characters: 200 of the
    value and the 15 of "... (truncated)". *)
Theorem analyze_entry_value_bounded (B : builtins) (img : image) (r : report) :
  analyze B img = Answer r ->
  Forall (fun e => len (entry_value e) <= 215) (exif r).
Proof.
  intro H. destruct (analyze_report B img r H) as [HF _]. clear H.
  induction HF as [|kv e l l' [_ [_ [s [_ Hv]]]] _ IH]; constructor; [|exact IH].
  rewrite Hv. apply truncate_length.
Qed.

Lemma analyze_entry_value_bounded_witness :
  exists r,
    analyze sample_builtins
      (sample_image (Ret (Some [(40000, VBytes (repeat Byte.x61 300))])))
    = Answer r /\
    Forall (fun e => len (entry_value e) <= 215) (exif r) /\
    map (fun e => len (entry_value e)) (exif r) = [215].
Proof.
  eexists. split; [vm_compute; reflexivity|]. split; [|reflexivity].
  apply (analyze_entry_value_bounded sample_builtins
           (sample_image (Ret (Some [(40000, VBytes (repeat Byte.x61 300))])))).
  vm_compute. reflexivity.
Defined.

Lemma existsb_tag_in (names : list string) (d : exif_dict) :
  existsb (fun kv => tag_in (fst kv) names) d = true <->
  exists name, In name (map fst d) /\ In name names.
Proof.
  rewrite existsb_exists. split.
  - intros [kv [Hin Ht]]. exists (fst kv). split; [now apply in_map|].
    unfold tag_in in Ht. apply existsb_exists in Ht.
    destruct Ht as [x [Hx Heq]]. apply String.eqb_eq in Heq. now subst.
  - intros [name [Hin Hn]]. apply in_map_iff in Hin.
    destruct Hin as [kv [<- Hkv]]. exists kv. split; [assumption|].
    unfold tag_in. apply existsb_exists. exists (fst kv).
    split; [assumption | apply String.eqb_refl].
Qed.

(** In every report that [analyze] answers, [has_datetime] is true exactly
    when [exif_data] has a tag named DateTime, DateTimeOriginal or
    DateTimeDigitized, and [has_camera_model] exactly when it has a tag named
    Model or Make; the values of the tags play no part. *)
Theorem analyze_datetime_and_camera_flags (B : builtins) (img : image)
    (r : report) :
  analyze B img = Answer r ->
  (has_datetime (flags r) = true <->
   exists name,
     In name (map fst (get_exif_data B img)) /\
     In name ["DateTime"; "DateTimeOriginal"; "DateTimeDigitized"]) /\
  (has_camera_model (flags r) = true <->
   exists name,
     In name (map fst (get_exif_data B img)) /\ In name ["Model"; "Make"]).
Proof.
  intro H. destruct (analyze_report B img r H) as [_ [Hdt [Hcm _]]].
  rewrite Hdt, Hcm. split; apply existsb_tag_in.
Qed.

(** A maker without a date: [has_camera_model] only. *)
Lemma analyze_datetime_and_camera_flags_witness :
  exists r,
    analyze sample_builtins (sample_image (Ret (Some [(271, VNone)])))
    = Answer r /\
    has_camera_model (flags r) = true /\
    has_datetime (flags r) = false.
Proof.
  eexists. split; [vm_compute; reflexivity|].
  match goal with
  | |- has_camera_model (flags ?r) = true /\ _ =>
      destruct (analyze_datetime_and_camera_flags sample_builtins
                  (sample_image (Ret (Some [(271, VNone)]))) r
                  ltac:(vm_compute; reflexivity)) as [_ Hcm]
  end.
  split; [|reflexivity].
  apply Hcm. exists "Make". split; [left; reflexivity | right; left; reflexivity].
Defined.

(** ** When the request succeeds and when it fails *)

Lemma mixed_keys_ext (d d' : dict) :
  map fst d = map fst d' -> mixed_keys d = mixed_keys d'.
Proof. unfold mixed_keys. now intros ->. Qed.

Lemma get_gps_info_ok (B : builtins) (exif_data : exif_dict) :
  gps_tag_ok B exif_data = true ->
  exists o,
    get_gps_info B exif_data = Ret o /\
    forall g, o = Some g -> mixed_keys (gps_raw g) = false.
Proof.
  unfold gps_tag_ok. intro H.
  destruct (assoc_get String.eqb exif_data "GPSInfo") as [v|] eqn:E.
  - destruct v; try discriminate.
    + unfold get_gps_info. rewrite E. simpl.
      exists None. split; [reflexivity | discriminate].
    + destruct items as [|kv items].
      * unfold get_gps_info. rewrite E. simpl.
        exists None. split; [reflexivity | discriminate].
      * apply andb_true_iff in H. destruct H as [H Hkeys].
        apply andb_true_iff in H. destruct H as [Hlat Hlon].
        destruct (get_gps_info_returns B exif_data (kv :: items) E
                    ltac:(discriminate) Hlat Hlon) as [g [Hg _]].
        exists (Some g). split; [exact Hg|].
        intros g' Hg'. inversion Hg'. subst g'.
        rewrite (mixed_keys_ext _ _
                   (get_gps_info_raw_keys B exif_data (kv :: items) g E Hg)).
        now apply negb_true_iff in Hkeys.
  - unfold get_gps_info. rewrite E. simpl.
    exists None. split; [reflexivity | discriminate].
Qed.

(** For a file of fewer than 2^53 bytes whose GPSInfo tag is missing, [None]
    or a dictionary with hemisphere references that are text or missing and
    with sub-tags that, once resolved, are all names or all numbers, the
    request succeeds whatever the values of the tags are: no tag value makes
    [analyze] answer an error. *)
Theorem analyze_succeeds (B : builtins) (img : image) :
  0 <= img_size img < 2 ^ 53 ->
  gps_tag_ok B (get_exif_data B img) = true ->
  exists r, analyze B img = Answer r /\ success r = true.
Proof.
  intros Hsize Hgps.
  destruct (get_basic_info_returns img Hsize) as [basic Hbasic].
  destruct (get_gps_info_ok B _ Hgps) as [o [Ho Hkeys]].
  unfold analyze, analyze_image. rewrite Hbasic. cbn [bind].
  destruct (get_exif_data B img) as [|kv exif_data] eqn:E.
  - eexists. split; reflexivity.
  - rewrite Ho. cbn [bind].
    match goal with |- context [loop B ?items ?st0] =>
      destruct (loop_spec B items st0) as [st' [es [Hloop _]]]
    end.
    rewrite Hloop. cbn [bind]. unfold jsonify. cbn [gps].
    destruct o as [g|].
    + rewrite (Hkeys g eq_refl). eexists. split; reflexivity.
    + eexists. split; reflexivity.
Qed.

(** A GPS dictionary in which some sub-tags resolve to names and others stay
    numbers cannot be serialized: whatever its values are, the request is
    answered with the error of status 500. *)
Lemma analyze_mixed_keys (B : builtins) (img : image) (items : dict) :
  assoc_get String.eqb (get_exif_data B img) "GPSInfo" = Some (VDict items) ->
  mixed_keys (gps_data_raw_of B items) = true ->
  analyze B img = Failure500.
Proof.
  intros Hinfo Hmixed. unfold analyze, analyze_image.
  destruct (get_basic_info img) as [basic|]; cbn [bind]; [|reflexivity].
  destruct (get_exif_data B img) as [|kv exif_data] eqn:E; [discriminate|].
  destruct (get_gps_info B (kv :: exif_data)) as [[g|]|] eqn:Hg; cbn [bind];
    [| |reflexivity].
  - destruct (loop B (kv :: exif_data) _) as [st|]; cbn [bind]; [|reflexivity].
    unfold jsonify. cbn [gps].
    rewrite (mixed_keys_ext _ _
               (get_gps_info_raw_keys B (kv :: exif_data) items g Hinfo Hg)).
    now rewrite Hmixed.
  - exfalso. unfold get_gps_info in Hg. rewrite Hinfo in Hg.
    cbn [py_truthy bind] in Hg.
    destruct items as [|item items]; [discriminate|].
    cbn [List.length Nat.eqb negb] in Hg.
    destruct (match dict_get _ (KStr "GPSLatitude") with
              | Some t => coordinate B "S" t _
              | None => Ret None
              end) as [lat|]; [|discriminate].
    cbn [bind] in Hg.
    destruct (match dict_get _ (KStr "GPSLongitude") with
              | Some t => coordinate B "W" t _
              | None => Ret None
              end) as [lon|]; [|discriminate].
    cbn [bind] in Hg.
    destruct (sanitize_values B _) as [d|]; discriminate.
Qed.

(** A GPS dictionary in which one sub-tag ID has a name in GPSTAGS and
    another has none cannot be serialized: [get_gps_info] keeps the name of
    the one and the number of the other as keys of the raw block, and the
    request is answered with the error of status 500, whatever the values
    are. *)
Theorem analyze_mixed_gps_keys (B : builtins) (img : image) (items : dict)
    (i j : Z) (name : string) :
  assoc_get String.eqb (get_exif_data B img) "GPSInfo" = Some (VDict items) ->
  In (KInt i) (map fst items) -> GPSTAGS B i = Some name ->
  In (KInt j) (map fst items) -> GPSTAGS B j = None ->
  analyze B img = Failure500.
Proof.
  intros Hinfo Hi Hname Hj Hnone.
  apply (analyze_mixed_keys B img items Hinfo).
  assert (Hkeys : forall k, In k (map fst items) ->
            In (gps_sub_tag B k) (map fst (gps_data_raw_of B items))).
  { intros k Hk. rewrite gps_data_raw_of_fill.
    apply (fill_keys key_eqb key_eqb_eq). right.
    apply in_map_iff in Hk. destruct Hk as [kv [<- Hkv]].
    apply in_map_iff. now exists kv. }
  unfold mixed_keys. apply andb_true_iff. split; apply existsb_exists.
  - exists (KInt j). split; [|reflexivity].
    pose proof (Hkeys _ Hj) as H. cbn [gps_sub_tag] in H.
    now rewrite Hnone in H.
  - exists (KStr name). split; [|reflexivity].
    pose proof (Hkeys _ Hi) as H. cbn [gps_sub_tag] in H.
    now rewrite Hname in H.
Qed.

(** A latitude with its reference and a sub-tag 999 that has no name: the
    keys of the raw block are two names and the number 999. *)
Lemma analyze_mixed_gps_keys_witness :
  analyze sample_builtins
    (sample_image
       (Ret (Some [(34853,
                    VDict [(KInt 1, VStr "N");
                           (KInt 2, VTuple [VInt 10; VInt 30; VInt 0]);
                           (KInt 999, VInt 1)])])))
  = Failure500.
Proof.
  apply (analyze_mixed_gps_keys sample_builtins _
           [(KInt 1, VStr "N");
            (KInt 2, VTuple [VInt 10; VInt 30; VInt 0]);
            (KInt 999, VInt 1)] 1 999 "GPSLatitudeRef").
  - reflexivity.
  - left. reflexivity.
  - reflexivity.
  - right. right. left. reflexivity.
  - reflexivity.
Defined.

(** Tags whose values are an object that cannot be converted or printed, a
    nested dictionary and a GPS block with an undecodable latitude. *)
Lemma analyze_succeeds_witness :
  exists r,
    analyze sample_builtins
      (sample_image
         (Ret (Some [(40000, VObj Exc Exc Exc AttrRaises AttrRaises
                               AttrRaises AttrRaises);
                     (40001, VDict [(KInt 1, VDict [])]);
                     (34853, VDict [(KInt 2, VStr "north")])])))
    = Answer r /\ success r = true.
Proof.
  apply analyze_succeeds.
  - cbn [img_size sample_image]. lia.
  - reflexivity.
Defined.

(** [get_gps_info] returns [None] exactly when the GPSInfo tag is missing or
    holds a false value ([None], an empty dictionary, 0, empty text). *)
Theorem get_gps_info_none_iff (B : builtins) (exif_data : exif_dict) :
  get_gps_info B exif_data = Ret None <->
  match assoc_get String.eqb exif_data "GPSInfo" with
  | None => True
  | Some v => py_truthy v = Ret false
  end.
Proof.
  unfold get_gps_info.
  destruct (assoc_get String.eqb exif_data "GPSInfo") as [v|];
    [|simpl; tauto].
  destruct (py_truthy v) as [[|]|] eqn:Et; cbn [bind negb].
  - split; [|discriminate]. intro H. exfalso.
    destruct v; try discriminate.
    destruct (match dict_get _ (KStr "GPSLatitude") with
              | Some t => coordinate B "S" t _
              | None => Ret None
              end) as [lat|]; [|discriminate].
    cbn [bind] in H.
    destruct (match dict_get _ (KStr "GPSLongitude") with
              | Some t => coordinate B "W" t _
              | None => Ret None
              end) as [lon|]; [|discriminate].
    cbn [bind] in H.
    destruct (sanitize_values B _) as [d|]; discriminate.
  - tauto.
  - split; discriminate.
Qed.

(** A GPSInfo tag holding a true value that is not a dictionary (a number,
    text, a list) makes [get_gps_info] raise, and the request is answered
    with the error of status 500 instead of a report. *)
Theorem analyze_gps_not_a_dict (B : builtins) (img : image) (v : value) :
  assoc_get String.eqb (get_exif_data B img) "GPSInfo" = Some v ->
  true_and_not_a_dict v = true ->
  get_gps_info B (get_exif_data B img) = Exc /\
  analyze B img = Failure500.
Proof.
  intros Hinfo Hv.
  assert (Hgps : get_gps_info B (get_exif_data B img) = Exc).
  { unfold get_gps_info. rewrite Hinfo.
    destruct v; try discriminate; simpl in Hv; simpl; rewrite Hv; reflexivity. }
  split; [exact Hgps|].
  unfold analyze, analyze_image.
  destruct (get_basic_info img) as [basic|]; cbn [bind]; [|reflexivity].
  destruct (get_exif_data B img) as [|kv exif_data] eqn:E; [discriminate|].
  rewrite Hgps. reflexivity.
Qed.

(** A GPSInfo tag that holds a number. *)
Lemma analyze_gps_not_a_dict_witness :
  analyze sample_builtins
    (sample_image (Ret (Some [(272, VStr "X100"); (34853, VInt 716)])))
  = Failure500.
Proof.
  apply (analyze_gps_not_a_dict sample_builtins
           (sample_image (Ret (Some [(272, VStr "X100"); (34853, VInt 716)])))
           (VInt 716)); reflexivity.
Defined.

(** ** Shapes of a GPS coordinate *)

(** A coordinate of two elements is read as one rational, numerator over
    denominator, not as degrees and minutes; a sequence of any length other
    than two and three decodes to [None]; and a value that is no sequence
    and converts with [float] is returned as that float. *)
Theorem convert_to_degrees_by_shape (B : builtins) (v : value) :
  (forall a b,
      seq_items v = Some [a; b] ->
      _convert_to_degrees B v =
        Ret (match ratio B a b with
             | Ret f => Some f
             | Exc => None
             end)) /\
  (forall xs,
      seq_items v = Some xs ->
      List.length xs <> 2%nat -> List.length xs <> 3%nat ->
      _convert_to_degrees B v = Ret None) /\
  (forall f,
      seq_items v = None -> py_float B v = Ret f ->
      _convert_to_degrees B v = Ret (Some f)).
Proof.
  split; [|split].
  - intros a b Hv. unfold _convert_to_degrees, _to_float_rational.
    rewrite Hv.
    assert (Hf : py_float B v = Exc)
      by (destruct v; try discriminate; reflexivity).
    rewrite Hf. cbn [try_except].
    destruct (ratio B a b); reflexivity.
  - intros xs Hv H2 H3. apply convert_to_degrees_single_fails.
    + intros a b c Habc. rewrite Hv in Habc. inversion Habc. subst.
      now apply H3.
    + now apply (to_float_rational_sequence B v xs).
  - intros f Hv Hf. unfold _convert_to_degrees, _to_float_rational.
    rewrite Hv, Hf. reflexivity.
Qed.

(** The pair (21, 2) decodes to 10.5, four elements to [None], and the
    float 10.5 to itself. *)
Lemma convert_to_degrees_by_shape_witness :
  _convert_to_degrees sample_builtins (VTuple [VInt 21; VInt 2])
  = Ret (Some f10_5) /\
  _convert_to_degrees sample_builtins
    (VList [VInt 10; VInt 30; VInt 0; VInt 0]) = Ret None /\
  _convert_to_degrees sample_builtins (VFloat f10_5) = Ret (Some f10_5).
Proof.
  split; [|split].
  - refine (eq_trans
              (proj1 (convert_to_degrees_by_shape sample_builtins
                        (VTuple [VInt 21; VInt 2]))
                 (VInt 21) (VInt 2) eq_refl) _).
    vm_compute. reflexivity.
  - apply (proj1 (proj2 (convert_to_degrees_by_shape sample_builtins
                           (VList [VInt 10; VInt 30; VInt 0; VInt 0])))
             [VInt 10; VInt 30; VInt 0; VInt 0]);
      [reflexivity | discriminate | discriminate].
  - apply (proj2 (proj2 (convert_to_degrees_by_shape sample_builtins
                           (VFloat f10_5)))); reflexivity.
Defined.

(** ** Sizes below zero *)

Lemma of_Z_exact_neg (p : positive) :
  Zpos (digits2_pos p) <= 53 ->
  exists m,
    F64.of_Z (Zneg p) = S754_finite true m (Zpos (digits2_pos p) - 53) /\
    digits2_pos m = 53%positive /\
    Zpos m = Zpos p * 2 ^ (53 - Zpos (digits2_pos p)).
Proof.
  intro HD. unfold F64.of_Z, binary_normalize, binary_round, shl_align, fexp, emin.
  unfold F64.prec, F64.emax.
  replace (Z.max (Zpos (digits2_pos p) + 0 - 53) (3 - 1024 - 53) - 0)
    with (Zpos (digits2_pos p) - 53) by lia.
  replace (Z.max (Zpos (digits2_pos p) + 0 - 53) (3 - 1024 - 53))
    with (Zpos (digits2_pos p) - 53) by lia.
  destruct (Zpos (digits2_pos p) - 53) as [|d|d] eqn:E; [| lia |].
  - exists p. split.
    + apply binary_round_aux_exact; [lia | lia].
    + split; [lia|]. replace (53 - Zpos (digits2_pos p)) with 0 by lia. lia.
  - exists (Pos.iter xO p d).
    assert (Hdig : digits2_pos (Pos.iter xO p d) = 53%positive)
      by (rewrite iter_xO_digits; lia).
    split; [|split].
    + apply binary_round_aux_exact; [exact Hdig | lia].
    + exact Hdig.
    + rewrite iter_xO_value. f_equal. f_equal. lia.
Qed.

Lemma round_half_even_whole (a : Z) : F64.round_half_even a 1 = a.
Proof.
  unfold F64.round_half_even. rewrite Z.div_1_r, Z.mod_1_r. reflexivity.
Qed.

(** A size below zero never climbs the ladder, since it is below 1024: it
    is printed whole, with its sign and two zero decimals, in B. *)
Theorem format_size_negative (n : Z) :
  - 2 ^ 53 < n < 0 ->
  format_size n = Ret ("-" ++ F64.fixed2 (100 * - n) ++ " B").
Proof.
  intro Hn. destruct n as [|p|p]; [lia | lia |].
  pose proof (digits2_pos_bounds p) as HD.
  set (D := Zpos (digits2_pos p)) in *.
  assert (HD53 : D <= 53).
  { assert (D - 1 < 53); [|lia]. apply pow2_lt_digits; lia. }
  destruct (of_Z_exact_neg p HD53) as [m [Hof [Hdig Hm]]]. fold D in Hof, Hm.
  unfold format_size, F64.of_int. rewrite Hof. cbn [F64.is_finite bind].
  cbn [units format_size_loop].
  change (F64.ltb (S754_finite true m (D - 53)) F64.f1024) with true.
  cbn iota. f_equal. unfold F64.fmt2. cbn [F64.sign_str append].
  do 3 f_equal.
  change (- Zneg p) with (Zpos p).
  destruct (0 <=? D - 53) eqn:E.
  - apply Z.leb_le in E. assert (HD0 : D - 53 = 0) by lia.
    rewrite Hm, HD0. replace (53 - D) with 0 by lia. simpl. lia.
  - apply Z.leb_gt in E. rewrite Hm.
    replace (- (D - 53)) with (53 - D) by lia.
    replace (Zpos p * 2 ^ (53 - D) * 100)
      with (2 ^ (53 - D) * (100 * Zpos p)) by lia.
    rewrite <- (Z.mul_1_r (2 ^ (53 - D))) at 2.
    rewrite round_half_even_scale.
    + apply round_half_even_whole.
    + apply Z.pow_pos_nonneg; lia.
    + lia.
Qed.

Lemma format_size_negative_witness : format_size (-5000) = Ret "-5000.00 B".
Proof.
  rewrite (format_size_negative (-5000)); [reflexivity | lia].
Defined.

(** ** Objects that convert to a float *)

Lemma to_int_exact (f : F64.float) :
  F64.is_integer f = true ->
  exists n, F64.to_int f = Ret n /\ is_exactly f n.
Proof.
  destruct f as [s|s| |s m e]; cbn [F64.is_integer F64.to_int is_exactly];
    try discriminate; intro H.
  - now exists 0.
  - eexists. split; [reflexivity|].
    destruct (0 <=? e) eqn:E.
    + destruct s; ring.
    + apply Z.eqb_eq in H. apply Z.leb_gt in E.
      assert (Hpos : 0 < 2 ^ (- e)) by (apply Z.pow_pos_nonneg; lia).
      pose proof (Z.div_mod (Zpos m) (2 ^ (- e)) ltac:(lia)) as Hdm.
      rewrite H, Z.add_0_r in Hdm.
      set (q := Zpos m / 2 ^ (- e)) in *. set (t := 2 ^ (- e)) in *.
      destruct s; rewrite Hdm; ring.
Qed.

(** An object that converts with [float] to a whole number is sanitized to
    the [int] of exactly that value, and one that converts to any other
    float (a fraction, an infinity, nan) to that float: whatever its
    attributes and its [str], it does not become a string and the value is
    not changed. *)
Theorem sanitize_for_json_float_object (B : builtins) (f : F64.float)
    (tr : res bool) (st : res string) (a1 a2 a3 a4 : attr value) :
  (F64.is_integer f = true ->
   exists n,
     sanitize_for_json B (VObj (Ret f) tr st a1 a2 a3 a4) = Ret (VInt n) /\
     is_exactly f n) /\
  (F64.is_integer f = false ->
   sanitize_for_json B (VObj (Ret f) tr st a1 a2 a3 a4) = Ret (VFloat f)).
Proof.
  cbn [sanitize_for_json]. unfold sanitize_other, sanitize_float, collapse.
  cbn [py_float bind]. split; intro H; rewrite H.
  - destruct (to_int_exact f H) as [n [Hn Hex]]. rewrite Hn. cbn [bind try_pass].
    now exists n.
  - reflexivity.
Qed.

(** The rational 6/2 of the decoding library, with float 3.0, becomes 3;
    3/2, with float 1.5, stays 1.5. *)
Lemma sanitize_for_json_float_object_witness :
  sanitize_for_json sample_builtins
    (VObj (Ret (F64.of_Z 3)) (Ret true) (Ret "3.0")
       (AttrValue (VInt 6)) AttrMissing (AttrValue (VInt 2)) AttrMissing)
  = Ret (VInt 3) /\
  sanitize_for_json sample_builtins
    (VObj (Ret (S754_finite false 6755399441055744 (-52))) (Ret true)
       (Ret "1.5")
       (AttrValue (VInt 3)) AttrMissing (AttrValue (VInt 2)) AttrMissing)
  = Ret (VFloat (S754_finite false 6755399441055744 (-52))).
Proof.
  split.
  - destruct (proj1 (sanitize_for_json_float_object sample_builtins
                       (F64.of_Z 3) (Ret true) (Ret "3.0")
                       (AttrValue (VInt 6)) AttrMissing
                       (AttrValue (VInt 2)) AttrMissing) eq_refl)
      as [n [H _]].
    rewrite H. vm_compute in H. inversion H. reflexivity.
  - apply (proj2 (sanitize_for_json_float_object sample_builtins
                    (S754_finite false 6755399441055744 (-52)) (Ret true)
                    (Ret "1.5")
                    (AttrValue (VInt 3)) AttrMissing
                    (AttrValue (VInt 2)) AttrMissing)).
    reflexivity.
Defined.
